(** * simple-linkz: the persistence and authentication core

    A shallow embedding of [src/auth.js], [src/storage.js] and the
    authentication handlers of [src/api.js], with the properties the
    design document states about them.

    Conventions of the embedding.
    - A JavaScript string is a Rocq [string]; each [ascii] is one UTF-16
      code unit in the range U+0000..U+00FF.  This covers every string a
      request header can carry and every string this core produces
      (hexadecimal tokens, signatures and secrets).
    - [null] and [undefined] results of a function that otherwise returns a
      string are [None].
    - Timestamps ([Date.now()]) are integers, in milliseconds. *)

From Stdlib Require Import ZArith NArith List Ascii String Lia.
From stdpp Require Import base option gmap strings.
Import ListNotations.

Local Open Scope string_scope.

(* ===================================================================== *)
(** ** Node's [crypto] as far as [auth.js] uses it: HMAC-SHA256 and hex    *)
(* ===================================================================== *)

Module Crypto.

Local Open Scope N_scope.
Local Open Scope list_scope.

(** 32-bit words are [N] with the wrap-around written out. *)
Definition mask32 : N := 0xFFFFFFFF.
Definition add32 (x y : N) : N := N.land (x + y) mask32.
Definition rotr (n x : N) : N :=
  N.lor (N.shiftr x n) (N.land (N.shiftl x (32 - n)) mask32).
Definition not32 (x : N) : N := N.lxor x mask32.

Definition Ch (x y z : N) : N := N.lxor (N.land x y) (N.land (not32 x) z).
Definition Maj (x y z : N) : N :=
  N.lxor (N.lxor (N.land x y) (N.land x z)) (N.land y z).
Definition bsig0 (x : N) : N := N.lxor (N.lxor (rotr 2 x) (rotr 13 x)) (rotr 22 x).
Definition bsig1 (x : N) : N := N.lxor (N.lxor (rotr 6 x) (rotr 11 x)) (rotr 25 x).
Definition ssig0 (x : N) : N := N.lxor (N.lxor (rotr 7 x) (rotr 18 x)) (N.shiftr x 3).
Definition ssig1 (x : N) : N := N.lxor (N.lxor (rotr 17 x) (rotr 19 x)) (N.shiftr x 10).

(** The sixty-four round constants of FIPS 180-4, section 4.2.2, eight to a
    row as the standard prints them. *)
Definition round_constants : list N :=
  List.concat
    [ [0x428a2f98; 0x71374491; 0xb5c0fbcf; 0xe9b5dba5;
       0x3956c25b; 0x59f111f1; 0x923f82a4; 0xab1c5ed5];
      [0xd807aa98; 0x12835b01; 0x243185be; 0x550c7dc3;
       0x72be5d74; 0x80deb1fe; 0x9bdc06a7; 0xc19bf174];
      [0xe49b69c1; 0xefbe4786; 0x0fc19dc6; 0x240ca1cc;
       0x2de92c6f; 0x4a7484aa; 0x5cb0a9dc; 0x76f988da];
      [0x983e5152; 0xa831c66d; 0xb00327c8; 0xbf597fc7;
       0xc6e00bf3; 0xd5a79147; 0x06ca6351; 0x14292967];
      [0x27b70a85; 0x2e1b2138; 0x4d2c6dfc; 0x53380d13;
       0x650a7354; 0x766a0abb; 0x81c2c92e; 0x92722c85];
      [0xa2bfe8a1; 0xa81a664b; 0xc24b8b70; 0xc76c51a3;
       0xd192e819; 0xd6990624; 0xf40e3585; 0x106aa070];
      [0x19a4c116; 0x1e376c08; 0x2748774c; 0x34b0bcb5;
       0x391c0cb3; 0x4ed8aa4a; 0x5b9cca4f; 0x682e6ff3];
      [0x748f82ee; 0x78a5636f; 0x84c87814; 0x8cc70208;
       0x90befffa; 0xa4506ceb; 0xbef9a3f7; 0xc67178f2] ].

(** The eight chaining words. *)
Record digest_state := DigestState {
  ha : N; hb : N; hc : N; hd : N; he : N; hf : N; hg : N; hh : N
}.

Definition initial_state : digest_state :=
  DigestState 0x6a09e667 0xbb67ae85 0x3c6ef372 0xa54ff53a
              0x510e527f 0x9b05688c 0x1f83d9ab 0x5be0cd19.

(** One round.  [window] holds the sixteen schedule words W[t..t+15]; the
    round consumes W[t] and appends W[t+16]. *)
Definition word_at (window : list N) (i : nat) : N := List.nth i window 0.

Definition next_schedule_word (window : list N) : N :=
  add32 (add32 (ssig1 (word_at window 14)) (word_at window 9))
        (add32 (ssig0 (word_at window 1)) (word_at window 0)).

Definition round (acc : digest_state * list N) (k : N) : digest_state * list N :=
  let '(s, window) := acc in
  let t1 := add32 (add32 (add32 (hh s) (bsig1 (he s)))
                         (add32 (Ch (he s) (hf s) (hg s)) k))
                  (word_at window 0) in
  let t2 := add32 (bsig0 (ha s)) (Maj (ha s) (hb s) (hc s)) in
  (DigestState (add32 t1 t2) (ha s) (hb s) (hc s)
               (add32 (hd s) t1) (he s) (hf s) (hg s),
   List.tl window ++ [next_schedule_word window]).

Definition compress (s : digest_state) (block : list N) : digest_state :=
  let r := fst (List.fold_left round round_constants (s, block)) in
  DigestState (add32 (ha s) (ha r)) (add32 (hb s) (hb r))
              (add32 (hc s) (hc r)) (add32 (hd s) (hd r))
              (add32 (he s) (he r)) (add32 (hf s) (hf r))
              (add32 (hg s) (hg r)) (add32 (hh s) (hh r)).

(** Bytes are [N] below 256. *)
Definition be_bytes (width : nat) (x : N) : list N :=
  List.map (fun i => N.land (N.shiftr x (8 * N.of_nat i)) 0xFF)
           (List.rev (List.seq 0 width)).

Definition pad (msg : list N) : list N :=
  let len := N.of_nat (List.length msg) in
  let zeros := N.to_nat (N.modulo (119 - N.modulo len 64) 64) in
  msg ++ [0x80] ++ List.repeat 0 zeros ++ be_bytes 8 (8 * len).

(** Big-endian words of a byte list, four bytes at a time. *)
Fixpoint words_of_bytes (bs : list N) : list N :=
  match bs with
  | b0 :: b1 :: b2 :: b3 :: rest =>
      N.lor (N.shiftl b0 24) (N.lor (N.shiftl b1 16) (N.lor (N.shiftl b2 8) b3))
      :: words_of_bytes rest
  | _ => []
  end.

(** Absorb the padded message sixteen words at a time. *)
Fixpoint absorb (fuel : nat) (s : digest_state) (ws : list N) : digest_state :=
  match fuel, ws with
  | S fuel', _ :: _ => absorb fuel' (compress s (List.firstn 16 ws)) (List.skipn 16 ws)
  | _, _ => s
  end.

Definition sha256 (msg : list N) : list N :=
  let ws := words_of_bytes (pad msg) in
  let s := absorb (List.length ws) initial_state ws in
  List.concat (List.map (be_bytes 4)
    [ha s; hb s; hc s; hd s; he s; hf s; hg s; hh s]).

(** HMAC (RFC 2104) over SHA-256, block size 64. *)
Definition hmac_sha256 (key msg : list N) : list N :=
  let key' := if (64 <? N.of_nat (List.length key)) then sha256 key else key in
  let block := key' ++ List.repeat 0 (64 - List.length key')%nat in
  let ipad := List.map (N.lxor 0x36) block in
  let opad := List.map (N.lxor 0x5c) block in
  sha256 (opad ++ sha256 (ipad ++ msg)).

(** [Buffer.from(s, 'utf8')] for code units below U+0100: one byte below
    U+0080, two bytes from there on. *)
Definition utf8_of_unit (c : ascii) : list N :=
  let n := N_of_ascii c in
  if n <? 0x80 then [n]
  else [N.lor 0xC0 (N.shiftr n 6); N.lor 0x80 (N.land n 0x3F)].

Definition utf8 (s : string) : list N :=
  List.concat (List.map utf8_of_unit (list_ascii_of_string s)).

(** [digest('hex')]: two lower-case digits per byte. *)
Definition hex_digits : list ascii :=
  list_ascii_of_string "0123456789abcdef".

Definition hex_digit (n : N) : ascii := List.nth (N.to_nat n) hex_digits "f"%char.

Fixpoint hex (bs : list N) : string :=
  match bs with
  | [] => EmptyString
  | b :: rest =>
      String (hex_digit (N.shiftr b 4)) (String (hex_digit (N.land b 0xF)) (hex rest))
  end.

(** [crypto.createHmac('sha256', secret).update(value).digest('hex')] *)
Definition createHmac_sha256_hex (secret value : string) : string :=
  hex (hmac_sha256 (utf8 secret) (utf8 value)).

End Crypto.

(* ===================================================================== *)
(** ** The runtime the modules run in: files, clock, random source, errors *)
(* ===================================================================== *)

(** *** The persisted document ([DEFAULT_DATA] in [storage.js] gives its shape) *)

Record User := mkUser { username : string; passwordHash : string }.

Record Session := mkSession { createdAt : Z; expiresAt : Z }.

Record Preferences := mkPreferences {
  layout : string; theme : string; accentColor : string;
  backgroundColor : string; pageTitle : string
}.

Record Link := mkLink {
  link_id : string; link_name : string; link_url : string; link_order : Z
}.

(** [sessionSecret] is a string in every document the program stores:
    [initializeData] fills it in before the only write of a fresh document. *)
Record Document := mkDocument {
  sessionSecret : string;
  user : option User;
  preferences : Preferences;
  links : list Link;
  sessions : gmap string Session
}.

(** What a file holds.  [JSON.stringify] and [JSON.parse] are inverse on
    documents, so a file whose text parses is represented by the document it
    parses to; [Malformed] is any text [JSON.parse] rejects, such as the
    fragment a torn write leaves behind. *)
Inductive file_content :=
| Json (d : Document)
| Malformed (text : string).

Inductive error :=
| ENOENT        (* no such file *)
| EIO           (* any other failure of a file-system call *)
| SyntaxError.  (* JSON.parse *)

Inductive result (A : Type) :=
| Ok (a : A)
| Throw (e : error).
Arguments Ok {A} a.
Arguments Throw {A} e.

(** Failure injection: every file-system call consumes one entry of the
    plan.  [Proceed] lets the call run; [Fail] makes it throw [EIO] without
    touching any file; [FailPartial c] (for [writeFile]) throws after leaving
    [c] at the path being written.  An exhausted plan means no more faults. *)
Inductive outcome :=
| Proceed
| Fail
| FailPartial (residue : file_content).

Record World := mkWorld {
  files : gmap string file_content;
  plan : list outcome;
  clock : Z;                (* what Date.now() reads *)
  random : nat -> N;        (* the stream crypto.randomBytes draws from *)
  drawn : nat               (* how many bytes of it have been drawn *)
}.

Definition M (A : Type) : Type := World -> result A * World.

Definition ret {A} (a : A) : M A := fun w => (Ok a, w).
Definition throw {A} (e : error) : M A := fun w => (Throw e, w).
Definition bind {A B} (m : M A) (k : A -> M B) : M B :=
  fun w => match m w with
           | (Ok a, w') => k a w'
           | (Throw e, w') => (Throw e, w')
           end.
(** [try { body } catch (error) { handler }] *)
Definition try_catch {A} (body : M A) (handler : error -> M A) : M A :=
  fun w => match body w with
           | (Ok a, w') => (Ok a, w')
           | (Throw e, w') => handler e w'
           end.

Notation "'let*' x ':=' m 'in' k" := (bind m (fun x => k))
  (at level 10, x pattern, m at level 100, k at level 200).

Definition with_files (f : gmap string file_content -> gmap string file_content)
    (w : World) : World :=
  mkWorld (f (files w)) (plan w) (clock w) (random w) (drawn w).

Definition next_outcome (w : World) : outcome * World :=
  match plan w with
  | [] => (Proceed, w)
  | o :: rest => (o, mkWorld (files w) rest (clock w) (random w) (drawn w))
  end.

(** The same world at clock reading [t]. *)
Definition at_time (t : Z) (w : World) : World :=
  mkWorld (files w) (plan w) t (random w) (drawn w).

(** The same world under another fault plan. *)
Definition with_plan (p : list outcome) (w : World) : World :=
  mkWorld (files w) p (clock w) (random w) (drawn w).

Definition is_proceed (o : outcome) : bool :=
  match o with
  | Proceed => true
  | _ => false
  end.

(** No fault is injected into the next [n] file-system calls. *)
Definition calm (n : nat) (w : World) : bool :=
  List.forallb is_proceed (List.firstn n (plan w)).

(** *** [fs.promises] *)
Module fs.

Definition mkdir (path : string) : M unit := fun w =>
  match next_outcome w with
  | (Proceed, w') => (Ok tt, w')
  | (_, w') => (Throw EIO, w')
  end.

Definition access (path : string) : M unit := fun w =>
  match next_outcome w with
  | (Proceed, w') =>
      match files w' !! path with
      | Some _ => (Ok tt, w')
      | None => (Throw ENOENT, w')
      end
  | (_, w') => (Throw EIO, w')
  end.

Definition readFile (path : string) : M file_content := fun w =>
  match next_outcome w with
  | (Proceed, w') =>
      match files w' !! path with
      | Some c => (Ok c, w')
      | None => (Throw ENOENT, w')
      end
  | (_, w') => (Throw EIO, w')
  end.

Definition writeFile (path : string) (c : file_content) : M unit := fun w =>
  match next_outcome w with
  | (Proceed, w') => (Ok tt, with_files (insert path c) w')
  | (Fail, w') => (Throw EIO, w')
  | (FailPartial residue, w') => (Throw EIO, with_files (insert path residue) w')
  end.

(** [rename] replaces the destination in one step or not at all. *)
Definition rename (src dst : string) : M unit := fun w =>
  match next_outcome w with
  | (Proceed, w') =>
      match files w' !! src with
      | Some c => (Ok tt, with_files (fun fs => insert dst c (delete src fs)) w')
      | None => (Throw ENOENT, w')
      end
  | (_, w') => (Throw EIO, w')
  end.

End fs.

(** [Date.now()] *)
Definition Date_now : M Z := fun w => (Ok (clock w), w).

(** [crypto.randomBytes(n)] *)
Definition randomBytes (n : nat) : M (list N) := fun w =>
  (Ok (List.map (fun i => N.land (random w i) 0xFF) (List.seq (drawn w) n)),
   mkWorld (files w) (plan w) (clock w) (random w) (drawn w + n)).

(** [JSON.parse] of a file's text. *)
Definition JSON_parse (c : file_content) : M Document :=
  match c with
  | Json d => ret d
  | Malformed _ => throw SyntaxError
  end.

(** [JSON.stringify(data, null, 2)] *)
Definition JSON_stringify (d : Document) : file_content := Json d.

(* ===================================================================== *)
(** ** JavaScript built-ins used on strings and objects                   *)
(* ===================================================================== *)

(** [s.split(sep)] for a one-character separator: every occurrence of
    [sep] cuts, and empty pieces are kept ("a." gives ["a"; ""]). *)
Fixpoint split (sep : ascii) (s : string) : list string :=
  match s with
  | EmptyString => [EmptyString]
  | String c rest =>
      if Ascii.eqb c sep then EmptyString :: split sep rest
      else match split sep rest with
           | piece :: pieces => String c piece :: pieces
           | [] => [String c EmptyString]
           end
  end.

(** White space [trim] strips, among code units below U+0100:
    TAB, LF, VT, FF, CR, SPACE and NO-BREAK SPACE. *)
Definition is_white_space (c : ascii) : bool :=
  let n := N_of_ascii c in
  ((9 <=? n) && (n <=? 13) || (n =? 32) || (n =? 160))%N.

Fixpoint trim_start (s : string) : string :=
  match s with
  | String c rest => if is_white_space c then trim_start rest else s
  | EmptyString => EmptyString
  end.

Fixpoint trim_end (s : string) : string :=
  match s with
  | EmptyString => EmptyString
  | String c rest =>
      match trim_end rest with
      | EmptyString => if is_white_space c then EmptyString else String c EmptyString
      | rest' => String c rest'
      end
  end.

Definition trim (s : string) : string := trim_end (trim_start s).

(** How often [c] occurs in [s]. *)
Fixpoint occurrences (c : ascii) (s : string) : nat :=
  match s with
  | EmptyString => 0
  | String c' rest => (if Ascii.eqb c' c then 1 else 0) + occurrences c rest
  end.

(** [o[key]] on a plain object whose own properties are the map [o]: an own
    property wins, then the members every object inherits from
    [Object.prototype], else [undefined]. *)
Inductive property (A : Type) :=
| Own (a : A)
| Inherited
| Undefined.
Arguments Own {A} a.
Arguments Inherited {A}.
Arguments Undefined {A}.

Definition Object_prototype_keys : list string :=
  [ "constructor"; "hasOwnProperty"; "isPrototypeOf"; "propertyIsEnumerable";
    "toLocaleString"; "toString"; "valueOf"; "__proto__";
    "__defineGetter__"; "__defineSetter__"; "__lookupGetter__"; "__lookupSetter__" ].

Definition get_property {A} (o : gmap string A) (key : string) : property A :=
  match o !! key with
  | Some a => Own a
  | None => if bool_decide (key ∈ Object_prototype_keys) then Inherited else Undefined
  end.

(** The value [isAuthenticated] hands to its callers, who test it with [!]. *)
Inductive js_value :=
| JsUndefined
| JsBool (b : bool).

Definition truthy (v : js_value) : bool :=
  match v with
  | JsUndefined => false
  | JsBool b => b
  end.

(* ===================================================================== *)
(** ** [src/auth.js]                                                       *)
(* ===================================================================== *)

Module Auth.

Definition SESSION_DURATION : Z := 7 * 24 * 60 * 60 * 1000.

Definition generateSessionToken : M string :=
  let* bytes := randomBytes 32 in
  ret (Crypto.hex bytes).

Definition signCookie (value secret : string) : string :=
  let signature := Crypto.createHmac_sha256_hex secret value in
  value ++ "." ++ signature.

(** [signedValue] is a string here, so of the guard
    [!signedValue || typeof signedValue !== 'string'] the empty string is
    the case that remains. *)
Definition verifyCookie (signedValue secret : string) : option string :=
  if String.eqb signedValue "" then None
  else
    match split "." signedValue with
    | [value; signature] =>
        let expectedSignature := Crypto.createHmac_sha256_hex secret value in
        if negb (String.eqb signature expectedSignature) then None
        else Some value
    | _ => None
    end.

Definition createSession : M (string * Session) :=
  let* token := generateSessionToken in
  let* now := Date_now in
  ret (token, mkSession now (now + SESSION_DURATION)).

(** [session] is what a property read of the session table gave. An
    inherited member is an object without [expiresAt]. *)
Definition isSessionValid (session : property Session) : M bool :=
  match session with
  | Undefined => ret false
  | Inherited => ret false
  | Own s =>
      if (expiresAt s =? 0)%Z then ret false
      else
        let* now := Date_now in
        ret (now <? expiresAt s)%Z
  end.

(** *** Passwords

    [bcrypt.hash(password, rounds)] and [bcrypt.compare(password, hash)] are
    bcryptjs's; they are taken as given.  [bcrypt.hash] salts the hash with
    16 bytes of [crypto.randomBytes]. *)
Section Bcrypt.
Variable bcrypt_hash : string -> Z -> list N -> string.
Variable bcrypt_compare : string -> string -> bool.

Definition BCRYPT_ROUNDS : Z := 10.

Definition hashPassword (password : string) : M string :=
  let* salt := randomBytes 16 in
  ret (bcrypt_hash password BCRYPT_ROUNDS salt).

Definition verifyPassword (password hash : string) : M bool :=
  ret (bcrypt_compare password hash).

End Bcrypt.

End Auth.

(* ===================================================================== *)
(** ** [src/storage.js]                                                    *)
(* ===================================================================== *)

Module Storage.
Section WithDataDir.

(** [DATA_DIR] is [process.env.DATA_DIR || path.join(__dirname, '..', 'data')]
    and [DATA_FILE] is [path.join(DATA_DIR, 'data.json')]; both are fixed
    when the module loads. *)
Variables (DATA_DIR DATA_FILE : string).

Definition default_preferences : Preferences :=
  mkPreferences "grid" "dark" "blue" "gray" "Simple Linkz".

(** [{ ...DEFAULT_DATA }] with [sessionSecret] assigned, the only way
    [DEFAULT_DATA] is used as a document. *)
Definition DEFAULT_DATA (sessionSecret : string) : Document :=
  mkDocument sessionSecret None default_preferences [] ∅.

Definition readData : M Document :=
  try_catch
    (let* content := fs.readFile DATA_FILE in
     JSON_parse content)
    (fun error => throw error).

Definition writeData (data : Document) : M unit :=
  try_catch
    (let tempFile := DATA_FILE ++ ".tmp" in
     let* _ := fs.writeFile tempFile (JSON_stringify data) in
     fs.rename tempFile DATA_FILE)
    (fun error => throw error).

Definition initializeData : M unit :=
  try_catch
    (let* _ := fs.mkdir DATA_DIR in
     fs.access DATA_FILE)
    (fun _ =>
       let* bytes := randomBytes 32 in
       let data := DEFAULT_DATA (Crypto.hex bytes) in
       writeData data).

Definition getUser : M (option User) :=
  let* data := readData in
  ret (user data).

(** [setUser(null, null)] clears the account; every other call site passes
    two strings. *)
Definition setUser (credentials : option (string * string)) : M unit :=
  let* data := readData in
  let data' :=
    match credentials with
    | None =>
        mkDocument (sessionSecret data) None
                   (preferences data) (links data) (sessions data)
    | Some (username, passwordHash) =>
        mkDocument (sessionSecret data) (Some (mkUser username passwordHash))
                   (preferences data) (links data) (sessions data)
    end in
  writeData data'.

Definition getSessionSecret : M string :=
  let* data := readData in
  ret (sessionSecret data).

Definition getSessions : M (gmap string Session) :=
  let* data := readData in
  ret (sessions data).

Definition saveSessions (sessions' : gmap string Session) : M unit :=
  let* data := readData in
  let data' := mkDocument (sessionSecret data) (user data)
                          (preferences data) (links data) sessions' in
  writeData data'.

(** [data.links || []]: every stored document has its [links]. *)
Definition getLinks : M (list Link) :=
  let* data := readData in
  ret (links data).

Definition saveLinks (links' : list Link) : M unit :=
  let* data := readData in
  let data' := mkDocument (sessionSecret data) (user data)
                          (preferences data) links' (sessions data) in
  writeData data'.

(** [data.preferences || DEFAULT_DATA.preferences]: every stored document
    has its [preferences]. *)
Definition getPreferences : M Preferences :=
  let* data := readData in
  ret (preferences data).

Definition savePreferences (preferences' : Preferences) : M unit :=
  let* data := readData in
  let data' := mkDocument (sessionSecret data) (user data)
                          preferences' (links data) (sessions data) in
  writeData data'.

End WithDataDir.
End Storage.

(* ===================================================================== *)
(** ** [src/api.js]: the authentication gate and the handlers around it   *)
(* ===================================================================== *)

Module Api.

Definition COOKIE_NAME : string := "session".

(** Of a request, the core reads [req.headers.cookie] only. *)
Record Request := mkRequest { headers_cookie : option string }.

(** What a handler sends: [res.writeHead(statusCode, headers)] and
    [res.end(body)].  A handler starts with nothing sent, and sends once. *)
Inductive json_body :=
| Success                       (* { success: true } *)
| Failure (error : string)      (* { success: false, error } *)
| ErrorOnly (error : string).   (* { error } *)

Record Response := mkResponse {
  statusCode : Z;
  set_cookie : option string;
  body : json_body
}.

Definition sendJSON (statusCode : Z) (data : json_body) : Response :=
  mkResponse statusCode None data.

(** [cookies[parts[0]] = parts[1]]: an assignment to ["__proto__"] with a
    string on the right creates no property. *)
Definition set_cookie_entry (cookies : gmap string string) (cookie : string)
    : gmap string string :=
  match split "=" (trim cookie) with
  | [name; value] =>
      if String.eqb name "__proto__" then cookies else <[name := value]> cookies
  | _ => cookies
  end.

Definition parseCookies (req : Request) : gmap string string :=
  match headers_cookie req with
  | None => ∅
  | Some cookieHeader =>
      if String.eqb cookieHeader "" then ∅
      else List.fold_left set_cookie_entry (split ";" cookieHeader) ∅
  end.

Section WithDataFile.
Variable (DATA_FILE : string).

(** [cookies[COOKIE_NAME]] is an own property or [undefined]: ["session"]
    is no member of [Object.prototype]. *)
Definition isAuthenticated (req : Request) : M js_value :=
  let cookies := parseCookies req in
  match cookies !! COOKIE_NAME with
  | None => ret (JsBool false)
  | Some signedSession =>
      if String.eqb signedSession "" then ret (JsBool false)
      else
        let* secret := Storage.getSessionSecret DATA_FILE in
        match Auth.verifyCookie signedSession secret with
        | None => ret (JsBool false)
        | Some token =>
            if String.eqb token "" then ret (JsBool false)
            else
              let* sessions := Storage.getSessions DATA_FILE in
              let session := get_property sessions token in
              match session with
              | Undefined => ret JsUndefined
              | _ =>
                  let* valid := Auth.isSessionValid session in
                  ret (JsBool valid)
              end
        end
  end.

Definition cleared_cookie : string :=
  COOKIE_NAME ++ "=; HttpOnly; SameSite=Lax; Path=/; Max-Age=0".

Definition handleLogout (req : Request) : M Response :=
  try_catch
    (let cookies := parseCookies req in
     let* _ :=
       match cookies !! COOKIE_NAME with
       | None => ret tt
       | Some signedSession =>
           if String.eqb signedSession "" then ret tt
           else
             let* secret := Storage.getSessionSecret DATA_FILE in
             match Auth.verifyCookie signedSession secret with
             | None => ret tt
             | Some token =>
                 if String.eqb token "" then ret tt
                 else
                   let* sessions := Storage.getSessions DATA_FILE in
                   Storage.saveSessions DATA_FILE (delete token sessions)
             end
       end in
     ret (mkResponse 200 (Some cleared_cookie) Success))
    (fun error =>
       ret (sendJSON 500 (Failure "Internal server error"))).

Definition handleResetCredentials (req : Request) : M Response :=
  let* authenticated := isAuthenticated req in
  if negb (truthy authenticated) then
    ret (sendJSON 401 (ErrorOnly "Unauthorized"))
  else
    try_catch
      (let* _ := Storage.setUser DATA_FILE None in
       let* _ := Storage.saveSessions DATA_FILE ∅ in
       ret (mkResponse 200 (Some cleared_cookie) Success))
      (fun error =>
         ret (sendJSON 500 (Failure "Internal server error"))).

End WithDataFile.

(** *** The other handlers

    A request body is given as what [parseBody] makes of it: [None] when the
    text is no JSON, else the fields the handler reads.  The fields are
    typed: a user name and a password are strings or absent; a link is an
    object with string [id], [name], [url] and integer [order]; a
    preferences object has its five fields, all strings. *)

Record Credentials := mkCredentials {
  body_username : option string;
  body_password : option string
}.

(** The [links] field of a body: a falsy value (or none), a truthy value
    that is no array, or an array of links. *)
Inductive links_field :=
| LinksAbsent
| LinksNotArray
| LinksArray (links : list Link).

Record LinksBody := mkLinksBody { body_links : links_field }.

Record PreferencesBody := mkPreferencesBody { body_preferences : option Preferences }.

Record ImportBody := mkImportBody {
  import_links : links_field;
  import_preferences : option Preferences
}.

(** An answer that carries data, or one of the plain answers. *)
Inductive reply (A : Type) :=
| Data (statusCode : Z) (payload : A)
| Refusal (response : Response).
Arguments Data {A} statusCode payload.
Arguments Refusal {A} response.

(** [parseBody] rejects with [Error('Invalid JSON')]; every caller catches
    it without looking at it. *)
Definition parseBody {A} (body : option A) : M A :=
  match body with
  | Some fields => ret fields
  | None => throw SyntaxError
  end.

(** [!s] for a string or [undefined]. *)
Definition falsy (s : option string) : bool :=
  match s with
  | None => true
  | Some s => String.eqb s ""
  end.

Definition text (s : option string) : string :=
  match s with
  | Some s => s
  | None => ""
  end.

(** [list.includes(s)] *)
Definition includes (values : list string) (s : string) : bool :=
  List.existsb (String.eqb s) values.

Definition unauthorized : Response := sendJSON 401 (ErrorOnly "Unauthorized").

Definition validLayouts : list string := ["grid"; "list"; "cards"].
Definition validThemes : list string := ["light"; "dark"].
Definition validColors : list string :=
  ["blue"; "green"; "purple"; "red"; "orange"; "pink"; "cyan"; "yellow"].
Definition validBackgrounds : list string := ["white"; "gray"; "slate"; "zinc"].

Section Handlers.
Variable DATA_FILE : string.
Variable bcrypt_hash : string -> Z -> list N -> string.
Variable bcrypt_compare : string -> string -> bool.
(** [new URL(s).protocol], or [None] when the constructor throws. *)
Variable URL_protocol : string -> option string.

Definition handleSetupCheck : M (reply bool) :=
  try_catch
    (let* user := Storage.getUser DATA_FILE in
     ret (Data 200 (negb (bool_decide (is_Some user)))))
    (fun error => ret (Refusal (sendJSON 500 (ErrorOnly "Internal server error")))).

Definition handleSetup (body : option Credentials) : M Response :=
  try_catch
    (let* body := parseBody body in
     let username := body_username body in
     let password := body_password body in
     if falsy username || (String.length (text username) <? 3)%nat
        || (50 <? String.length (text username))%nat then
       ret (sendJSON 400 (Failure "Username must be 3-50 characters"))
     else if falsy password || (String.length (text password) <? 8)%nat then
       ret (sendJSON 400 (Failure "Password must be at least 8 characters"))
     else
       let* existingUser := Storage.getUser DATA_FILE in
       match existingUser with
       | Some _ => ret (sendJSON 400 (Failure "User already exists"))
       | None =>
           let* passwordHash := Auth.hashPassword bcrypt_hash (text password) in
           let* _ := Storage.setUser DATA_FILE (Some (text username, passwordHash)) in
           ret (sendJSON 200 Success)
       end)
    (fun error => ret (sendJSON 500 (Failure "Internal server error"))).

Definition login_cookie (signedToken : string) : string :=
  COOKIE_NAME ++ "=" ++ signedToken ++ "; HttpOnly; SameSite=Lax; Path=/; Max-Age=604800".

(** [sessions[token] = session]: an assignment to ["__proto__"] creates no
    property. *)
Definition set_session (token : string) (session : Session)
    (sessions : gmap string Session) : gmap string Session :=
  if String.eqb token "__proto__" then sessions else <[token := session]> sessions.

Definition handleLogin (body : option Credentials) : M Response :=
  try_catch
    (let* body := parseBody body in
     let username := body_username body in
     let password := body_password body in
     if falsy username || falsy password then
       ret (sendJSON 400 (Failure "Username and password required"))
     else
       let* user := Storage.getUser DATA_FILE in
       match user with
       | None => ret (sendJSON 401 (Failure "Invalid credentials"))
       | Some (mkUser user_username user_passwordHash) =>
           if negb (String.eqb user_username (text username)) then
             ret (sendJSON 401 (Failure "Invalid credentials"))
           else
             let* valid := Auth.verifyPassword bcrypt_compare (text password)
                                               user_passwordHash in
             if negb valid then
               ret (sendJSON 401 (Failure "Invalid credentials"))
             else
               let* created := Auth.createSession in
               let token := fst created in
               let session := snd created in
               let* sessions := Storage.getSessions DATA_FILE in
               let* _ := Storage.saveSessions DATA_FILE
                           (set_session token session sessions) in
               let* secret := Storage.getSessionSecret DATA_FILE in
               let signedToken := Auth.signCookie token secret in
               ret (mkResponse 200 (Some (login_cookie signedToken)) Success)
       end)
    (fun error => ret (sendJSON 500 (Failure "Internal server error"))).

Definition handleGetLinks (req : Request) : M (reply (list Link)) :=
  let* authenticated := isAuthenticated DATA_FILE req in
  if negb (truthy authenticated) then ret (Refusal unauthorized)
  else
    try_catch
      (let* links := Storage.getLinks DATA_FILE in
       ret (Data 200 links))
      (fun error => ret (Refusal (sendJSON 500 (ErrorOnly "Internal server error")))).

(** The loop over the links of [handleSaveLinks]: the answer of the first
    check that fails, or [None] when every link passes.  [ids] is the set of
    ids seen so far. *)
Fixpoint validate_links (ids : gset string) (links : list Link) : option Response :=
  match links with
  | [] => None
  | link :: rest =>
      if String.eqb (link_id link) "" || String.eqb (link_name link) ""
         || String.eqb (link_url link) "" then
        Some (sendJSON 400 (Failure "Invalid link format"))
      else if bool_decide (link_id link ∈ ids) then
        Some (sendJSON 400 (Failure "Duplicate link ID"))
      else if (link_order link <? 0)%Z then
        Some (sendJSON 400 (Failure "Order must be non-negative"))
      else
        match URL_protocol (link_url link) with
        | None => Some (sendJSON 400 (Failure "Invalid URL"))
        | Some protocol =>
            if negb (String.eqb protocol "http:") && negb (String.eqb protocol "https:")
            then Some (sendJSON 400 (Failure "URL must be HTTP or HTTPS"))
            else validate_links ({[link_id link]} ∪ ids) rest
        end
  end.

Definition handleSaveLinks (req : Request) (body : option LinksBody) : M Response :=
  let* authenticated := isAuthenticated DATA_FILE req in
  if negb (truthy authenticated) then ret unauthorized
  else
    try_catch
      (let* body := parseBody body in
       match body_links body with
       | LinksArray links =>
           match validate_links ∅ links with
           | Some refusal => ret refusal
           | None =>
               let* _ := Storage.saveLinks DATA_FILE links in
               ret (sendJSON 200 Success)
           end
       | _ => ret (sendJSON 400 (Failure "Links must be an array"))
       end)
      (fun error => ret (sendJSON 500 (Failure "Internal server error"))).

Definition handleGetPreferences (req : Request) : M (reply Preferences) :=
  let* authenticated := isAuthenticated DATA_FILE req in
  if negb (truthy authenticated) then ret (Refusal unauthorized)
  else
    try_catch
      (let* preferences := Storage.getPreferences DATA_FILE in
       ret (Data 200 preferences))
      (fun error => ret (Refusal (sendJSON 500 (ErrorOnly "Internal server error")))).

(** The checks of [handleSavePreferences], in their order: the answer of
    the first that fails. *)
Definition validate_preferences (preferences : Preferences) : option Response :=
  if negb (includes validLayouts (layout preferences)) then
    Some (sendJSON 400 (Failure "Invalid layout"))
  else if negb (includes validThemes (theme preferences)) then
    Some (sendJSON 400 (Failure "Invalid theme"))
  else if negb (includes validColors (accentColor preferences)) then
    Some (sendJSON 400 (Failure "Invalid accent color"))
  else if negb (includes validBackgrounds (backgroundColor preferences)) then
    Some (sendJSON 400 (Failure "Invalid background color"))
  else if String.eqb (pageTitle preferences) ""
          || (50 <? String.length (pageTitle preferences))%nat then
    Some (sendJSON 400 (Failure "Page title must be 1-50 characters"))
  else None.

(** Without a [preferences] field, [preferences.layout] throws a TypeError,
    which the [catch] answers. *)
Definition handleSavePreferences (req : Request) (body : option PreferencesBody)
    : M Response :=
  let* authenticated := isAuthenticated DATA_FILE req in
  if negb (truthy authenticated) then ret unauthorized
  else
    try_catch
      (let* body := parseBody body in
       match body_preferences body with
       | None => throw SyntaxError
       | Some preferences =>
           match validate_preferences preferences with
           | Some refusal => ret refusal
           | None =>
               let* _ := Storage.savePreferences DATA_FILE preferences in
               ret (sendJSON 200 Success)
           end
       end)
      (fun error => ret (sendJSON 500 (Failure "Internal server error"))).

(** [res.writeHead(200, ...)] with the attachment header, then the links
    and the preferences as the body. *)
Definition handleExport (req : Request) : M (reply (list Link * Preferences)) :=
  let* authenticated := isAuthenticated DATA_FILE req in
  if negb (truthy authenticated) then ret (Refusal unauthorized)
  else
    try_catch
      (let* links := Storage.getLinks DATA_FILE in
       let* preferences := Storage.getPreferences DATA_FILE in
       ret (Data 200 (links, preferences)))
      (fun error => ret (Refusal (sendJSON 500 (ErrorOnly "Internal server error")))).

(** The one condition of [handleImport] on the preferences. *)
Definition import_preferences_invalid (preferences : Preferences) : bool :=
  negb (includes validLayouts (layout preferences))
  || negb (includes validThemes (theme preferences))
  || negb (includes validColors (accentColor preferences))
  || (negb (String.eqb (backgroundColor preferences) "")
      && negb (includes validBackgrounds (backgroundColor preferences)))
  || (negb (String.eqb (pageTitle preferences) "")
      && ((String.length (pageTitle preferences) <? 1)%nat
          || (50 <? String.length (pageTitle preferences))%nat)).

Definition handleImport (req : Request) (body : option ImportBody) : M Response :=
  let* authenticated := isAuthenticated DATA_FILE req in
  if negb (truthy authenticated) then ret unauthorized
  else
    try_catch
      (let* body := parseBody body in
       let import_preferences_step :=
         match import_preferences body with
         | None => ret (sendJSON 200 Success)
         | Some preferences =>
             if import_preferences_invalid preferences then
               ret (sendJSON 400 (Failure "Invalid preferences"))
             else
               let* _ := Storage.savePreferences DATA_FILE preferences in
               ret (sendJSON 200 Success)
         end in
       match import_links body with
       | LinksAbsent => import_preferences_step
       | LinksNotArray => ret (sendJSON 400 (Failure "Links must be an array"))
       | LinksArray links =>
           let* _ := Storage.saveLinks DATA_FILE links in
           import_preferences_step
       end)
      (fun error => ret (sendJSON 500 (Failure "Internal server error"))).

End Handlers.

End Api.

(* ===================================================================== *)
(** ** [src/server.js]: the request path in front of the router          *)
(* ===================================================================== *)

Module Server.

(** [s.replace(/\/$/, '')]: one slash at the very end is removed. *)
Fixpoint remove_trailing_slash (s : string) : string :=
  match s with
  | EmptyString => EmptyString
  | String c rest =>
      if String.eqb rest "" then
        if Ascii.eqb c "/" then EmptyString else s
      else String c (remove_trailing_slash rest)
  end.

(** [(process.env.BASE_PATH || '').replace(/\/$/, '')] *)
Definition BASE_PATH (env : option string) : string :=
  remove_trailing_slash
    match env with
    | Some value => value
    | None => EmptyString
    end.

(** [s.substring(n)] *)
Definition substring_from (n : nat) (s : string) : string :=
  String.substring n (String.length s - n) s.

(** The first step of [handleRequest]: the path the request is served
    under. *)
Definition requestPath (BASE_PATH url : string) : string :=
  if negb (String.eqb BASE_PATH "") && String.prefix BASE_PATH url then
    let rest := substring_from (String.length BASE_PATH) url in
    if String.eqb rest "" then "/" else rest
  else url.

(** Where [handleRequest] sends the request: to [api.route], with the url
    replaced by the request path, or to the static files. *)
Inductive destination :=
| ApiRoute (url : string)
| StaticFile (requestPath : string).

Definition handleRequest_destination (BASE_PATH url : string) : destination :=
  let requestPath := requestPath BASE_PATH url in
  if String.prefix "/api/" requestPath then ApiRoute requestPath
  else StaticFile requestPath.

End Server.

(* ===================================================================== *)
(** ** The design document's wording, for comparison with the code        *)
(* ===================================================================== *)

Module Design.

(** "splits on the first [.]": the text before the first separator and the
    text after it, or nothing when there is no separator. *)
Fixpoint split_first (sep : ascii) (s : string) : option (string * string) :=
  match s with
  | EmptyString => None
  | String c rest =>
      if Ascii.eqb c sep then Some (EmptyString, rest)
      else match split_first sep rest with
           | Some (before, after) => Some (String c before, after)
           | None => None
           end
  end.

(** The Cookie Signer's [verify] as the design document words it: split on
    the first [.]; unless that gives two non-empty parts the result is
    null; then null on a signature mismatch and the extracted value on a
    match. *)
Definition verify (signedValue secret : string) : option string :=
  match split_first "." signedValue with
  | None => None
  | Some (value, signature) =>
      if String.eqb value EmptyString || String.eqb signature EmptyString then None
      else if String.eqb signature (Crypto.createHmac_sha256_hex secret value)
           then Some value
           else None
  end.

(** "true iff [session] exists and [now < session.expiresAt]". *)
Definition isValid (session : option Session) (now : Z) : bool :=
  match session with
  | Some s => (now <? expiresAt s)%Z
  | None => false
  end.

(** The Auth Gate, by the design document's five steps: the session cookie
    of the request, its verification under the stored secret, the lookup of
    the token in the session table, the expiry check; an internal error
    (here: no readable document) counts as unauthenticated. *)
Definition authGate (cookie : option string) (stored : option Document) (now : Z)
    : bool :=
  match cookie, stored with
  | Some signedValue, Some d =>
      match verify signedValue (sessionSecret d) with
      | Some token => isValid (sessions d !! token) now
      | None => false
      end
  | _, _ => false
  end.

End Design.

(* ===================================================================== *)
(** ** Reading the model's results                                         *)
(* ===================================================================== *)

(** The document a file holds, if it parses. *)
Definition stored_document (stored : option file_content) : option Document :=
  match stored with
  | Some (Json d) => Some d
  | _ => None
  end.

(** What [readData] returns, from the plan entry it consumes and the file. *)
Definition read_result (o : outcome) (stored : option file_content) : result Document :=
  match o, stored with
  | Proceed, Some (Json d) => Ok d
  | Proceed, Some (Malformed _) => Throw SyntaxError
  | Proceed, None => Throw ENOENT
  | _, _ => Throw EIO
  end.

(** The value [session && auth.isSessionValid(session)] at clock [now]. *)
Definition session_verdict (session : property Session) (now : Z) : js_value :=
  match session with
  | Undefined => JsUndefined
  | Inherited => JsBool false
  | Own s => JsBool (negb (expiresAt s =? 0)%Z && (now <? expiresAt s)%Z)
  end.

(** The document with one session entry removed. *)
Definition without_session (token : string) (d : Document) : Document :=
  mkDocument (sessionSecret d) (user d) (preferences d) (links d)
             (delete token (sessions d)).

(** The document with its session table replaced. *)
Definition with_sessions (table : gmap string Session) (d : Document) : Document :=
  mkDocument (sessionSecret d) (user d) (preferences d) (links d) table.

(** The two answers of [handleLogout]. *)
Definition logged_out : Api.Response :=
  Api.mkResponse 200 (Some Api.cleared_cookie) Api.Success.

Definition internal_server_error : Api.Response :=
  Api.sendJSON 500 (Api.Failure "Internal server error").

(** *** The states a reader can meet while [writeData] runs

    [writeData] makes two file-system calls.  While [writeFile] runs, the
    temporary file fills up piece by piece; [rename] is one step.  Either
    call can fail and leave the files as they are at that point. *)
Inductive write_phase :=
| Writing      (* in fs.writeFile *)
| Renaming     (* fs.writeFile has returned, fs.rename has not *)
| Finished     (* fs.rename has returned *)
| Failed.      (* a call has thrown *)

Inductive write_step (DATA_FILE : string) (data : Document) :
    write_phase * gmap string file_content ->
    write_phase * gmap string file_content -> Prop :=
| step_piece fs residue :
    write_step DATA_FILE data
      (Writing, fs) (Writing, <[DATA_FILE ++ ".tmp" := residue]> fs)
| step_written fs :
    write_step DATA_FILE data
      (Writing, fs) (Renaming, <[DATA_FILE ++ ".tmp" := JSON_stringify data]> fs)
| step_write_fails fs :
    write_step DATA_FILE data (Writing, fs) (Failed, fs)
| step_renamed fs :
    write_step DATA_FILE data
      (Renaming, fs)
      (Finished, <[DATA_FILE := JSON_stringify data]> (delete (DATA_FILE ++ ".tmp") fs))
| step_rename_fails fs :
    write_step DATA_FILE data (Renaming, fs) (Failed, fs).

(** *** Reading the other handlers' results *)

(** [p] holds of every code unit of [s]. *)
Fixpoint all_chars (p : ascii -> bool) (s : string) : bool :=
  match s with
  | EmptyString => true
  | String c rest => p c && all_chars p rest
  end.

Definition is_hex_digit (c : ascii) : bool :=
  List.existsb (Ascii.eqb c) Crypto.hex_digits.

(** A code unit that may stand in a cookie name or value without being cut
    or trimmed by [parseCookies]. *)
Definition cookie_char (c : ascii) : bool :=
  negb (is_white_space c || Ascii.eqb c ";" || Ascii.eqb c "=").

(** The document with one field replaced. *)
Definition with_user (u : option User) (d : Document) : Document :=
  mkDocument (sessionSecret d) u (preferences d) (links d) (sessions d).

Definition with_links (l : list Link) (d : Document) : Document :=
  mkDocument (sessionSecret d) (user d) (preferences d) l (sessions d).

Definition with_preferences (p : Preferences) (d : Document) : Document :=
  mkDocument (sessionSecret d) (user d) p (links d) (sessions d).

(** A read of the document followed by the write of a changed copy: the
    shape of every setter of [storage.js]. *)
Definition update (DATA_FILE : string) (change : Document -> Document) : M unit :=
  let* data := Storage.readData DATA_FILE in
  Storage.writeData DATA_FILE (change data).

(** What a setter [m] that stores [change] of the document does from [w]:
    it returns with the changed document stored, which takes a readable
    document and no fault in its three calls, or it throws with the document
    file as before. *)
Definition stores_or_keeps (DATA_FILE : string) (m : M unit)
    (change : Document -> Document) (w : World) : Prop :=
  match m w with
  | (Ok _, w') =>
      calm 3 w = true /\
      exists d, stored_document (files w !! DATA_FILE) = Some d /\
                files w' !! DATA_FILE = Some (Json (change d))
  | (Throw _, w') =>
      (calm 3 w = false \/ stored_document (files w !! DATA_FILE) = None) /\
      files w' !! DATA_FILE = files w !! DATA_FILE
  end.

(** The stored account has the user name of the body, and bcrypt accepts the
    body's password for its hash. *)
Definition credentials_match (bcrypt_compare : string -> string -> bool)
    (body : Api.Credentials) (d : Document) : bool :=
  match user d with
  | Some u =>
      String.eqb (username u) (Api.text (Api.body_username body))
      && bcrypt_compare (Api.text (Api.body_password body)) (passwordHash u)
  | None => false
  end.

Definition invalid_credentials : Api.Response :=
  Api.sendJSON 401 (Api.Failure "Invalid credentials").




(** The request a browser sends after it was handed the signed token. *)
Definition request_with_session (signedToken : string) : Api.Request :=
  Api.mkRequest (Some (Api.COOKIE_NAME ++ "=" ++ signedToken)).

(** *** Sample data *)

Definition sample_data_dir : string := "/data".
Definition sample_data_file : string := "/data/data.json".
Definition sample_time : Z := 1700000000000.

(** A stored document with one account and one session, created at
    [sample_time] under the token ["tok123"]. *)
Definition sample_document : Document :=
  mkDocument "secretA"
    (Some (mkUser "admin" "$2a$10$abcdefghijklmnopqrstuv"))
    Storage.default_preferences []
    {[ "tok123" := mkSession sample_time (sample_time + 604800000) ]}.

(** One hour into the session, no faults planned. *)
Definition sample_world : World :=
  mkWorld {[ sample_data_file := Json sample_document ]} []
          (sample_time + 3600000) (fun _ => 0%N) 0.

(** A world in which the document file is missing. *)
Definition empty_world : World :=
  mkWorld ∅ [] (sample_time + 3600000) (fun _ => 0%N) 0.

(** A request carrying the signed cookie of the sample session. *)
Definition sample_request : Api.Request :=
  Api.mkRequest
    (Some "session=tok123.572db504aac38c25075e6a8b2bcd93f460783f2a79890940ef3b271491ae69a8").

(* ===================================================================== *)
(** ** Facts about the built-ins                                          *)
(* ===================================================================== *)

Example sha256_abc :
  Crypto.hex (Crypto.sha256 (Crypto.utf8 "abc"))
  = "ba7816bf8f01cfea414140de5dae2223b00361a396177a9cb410ff61f20015ad".
Proof. vm_compute. reflexivity. Qed.

Example hmac_rfc4231_case2 :
  Crypto.createHmac_sha256_hex "Jefe" "what do ya want for nothing?"
  = "5bdcc146bf60754e6a042426089575c75a003f089d2739839dec58b964ec3843".
Proof. vm_compute. reflexivity. Qed.

Example hmac_tok123 :
  Crypto.createHmac_sha256_hex "secretA" "tok123"
  = "572db504aac38c25075e6a8b2bcd93f460783f2a79890940ef3b271491ae69a8".
Proof. vm_compute. reflexivity. Qed.

Example split_examples :
  split "." "a.b" = ["a"; "b"] /\ split "." "a." = ["a"; ""] /\
  split "." "." = [""; ""] /\ split "." "" = [""] /\
  split "." "a.b.c" = ["a"; "b"; "c"] /\ split "." "abc" = ["abc"].
Proof. repeat split; reflexivity. Qed.

Example trim_examples :
  trim "  session=abc " = "session=abc" /\ trim " " = "" /\ trim "a b" = "a b".
Proof. repeat split; reflexivity. Qed.

Lemma occurrences_append c a b :
  occurrences c (a ++ b) = occurrences c a + occurrences c b.
Proof.
  induction a as [|x a IH]; simpl; [reflexivity|].
  rewrite IH. lia.
Qed.

Lemma split_length sep s : List.length (split sep s) = S (occurrences sep s).
Proof.
  induction s as [|c s IH]; simpl; [reflexivity|].
  destruct (Ascii.eqb c sep); simpl.
  - now rewrite IH.
  - destruct (split sep s) as [|piece pieces]; simpl in *; lia.
Qed.

Lemma split_without_separator sep s : occurrences sep s = 0 -> split sep s = [s].
Proof.
  induction s as [|c s IH]; simpl; [reflexivity|].
  destruct (Ascii.eqb c sep); simpl; [discriminate|].
  intros H. now rewrite (IH H).
Qed.

Lemma split_at_separator sep a b :
  occurrences sep a = 0 -> split sep (a ++ String sep b) = a :: split sep b.
Proof.
  induction a as [|c a IH]; simpl.
  - intros _. now rewrite Ascii.eqb_refl.
  - destruct (Ascii.eqb c sep); simpl; [discriminate|].
    intros H. now rewrite (IH H).
Qed.

(** Every string is dot-free, or a dot-free piece, a separator and a rest. *)
Lemma first_separator sep s :
  occurrences sep s = 0 \/
  exists a b, s = a ++ String sep b /\ occurrences sep a = 0.
Proof.
  induction s as [|c s IH]; simpl; [now left|].
  destruct (Ascii.eqb c sep) eqn:E.
  - right. apply Ascii.eqb_eq in E. subst c.
    exists EmptyString, s. now split.
  - destruct IH as [H | (a & b & -> & Ha)]; [now left|].
    right. exists (String c a), b. simpl. rewrite E. now split.
Qed.

Lemma hex_digit_not_dot n : Ascii.eqb (Crypto.hex_digit n) "." = false.
Proof.
  unfold Crypto.hex_digit.
  generalize (N.to_nat n). intros k.
  do 16 (destruct k as [|k]; [reflexivity|]).
  destruct k; reflexivity.
Qed.

Lemma hex_dot_free bs : occurrences "." (Crypto.hex bs) = 0.
Proof.
  induction bs as [|b bs IH]; simpl; [reflexivity|].
  now rewrite !hex_digit_not_dot, IH.
Qed.

Lemma signature_dot_free secret value :
  occurrences "." (Crypto.createHmac_sha256_hex secret value) = 0.
Proof. apply hex_dot_free. Qed.

Lemma signature_not_empty secret value :
  Crypto.createHmac_sha256_hex secret value <> EmptyString.
Proof.
  unfold Crypto.createHmac_sha256_hex, Crypto.hmac_sha256.
  generalize (Crypto.utf8 value). intros msg.
  match goal with |- Crypto.hex (Crypto.sha256 ?m) <> _ => generalize m end.
  intros m. unfold Crypto.sha256.
  match goal with |- context [Crypto.absorb ?f ?i ?w] =>
    generalize (Crypto.absorb f i w) end.
  intros s. discriminate.
Qed.

Arguments Crypto.createHmac_sha256_hex : simpl never.

Lemma split_first_none sep s :
  occurrences sep s = 0 -> Design.split_first sep s = None.
Proof.
  induction s as [|c s IH]; simpl; [reflexivity|].
  destruct (Ascii.eqb c sep); simpl; [discriminate|].
  intros H. now rewrite (IH H).
Qed.

Lemma split_first_at_separator sep a b :
  occurrences sep a = 0 ->
  Design.split_first sep (a ++ String sep b) = Some (a, b).
Proof.
  induction a as [|c a IH]; simpl.
  - intros _. now rewrite Ascii.eqb_refl.
  - destruct (Ascii.eqb c sep); simpl; [discriminate|].
    intros H. now rewrite (IH H).
Qed.

(** A string with a separator in it is no hex signature. *)
Lemma signature_has_no_dot secret value s :
  occurrences "." s <> 0 ->
  String.eqb s (Crypto.createHmac_sha256_hex secret value) = false.
Proof.
  intros H. apply String.eqb_neq. intros ->.
  apply H, signature_dot_free.
Qed.

(* ===================================================================== *)
(** ** The Cookie Signer                                                   *)
(* ===================================================================== *)

(** What [verifyCookie] does with a signed value that has exactly one
    separator. *)
Lemma verifyCookie_two_parts value signature secret :
  occurrences "." value = 0 -> occurrences "." signature = 0 ->
  Auth.verifyCookie (value ++ String "." signature) secret
  = if String.eqb signature (Crypto.createHmac_sha256_hex secret value)
    then Some value else None.
Proof.
  intros Hv Hs. unfold Auth.verifyCookie.
  rewrite split_at_separator, (split_without_separator _ signature) by assumption.
  destruct (String.eqb (value ++ String "." signature) EmptyString) eqn:E.
  - apply String.eqb_eq in E. destruct value; discriminate.
  - now destruct (String.eqb signature _).
Qed.

(** A signed value with no separator, or with more than one, is refused. *)
Lemma verifyCookie_wrong_part_count signedValue secret :
  occurrences "." signedValue <> 1 ->
  Auth.verifyCookie signedValue secret = None.
Proof.
  intros H. unfold Auth.verifyCookie.
  destruct (String.eqb signedValue EmptyString); [reflexivity|].
  pose proof (split_length "." signedValue) as L.
  destruct (split "." signedValue) as [|a [|b [|c rest]]]; try reflexivity.
  simpl in L. lia.
Qed.

(** C3. Signature integrity of the cookie signer: [signCookie value secret]
    is the value, a dot, and the hexadecimal HMAC-SHA256 of the value under
    the secret; verifying [sign "tok123" "secretA"] under ["secretA"] gives
    back ["tok123"], verifying it under ["secretB"] gives null, and
    verifying the unsigned ["tok123"] gives null. *)
Theorem signature_integrity :
  (forall value secret,
     Auth.signCookie value secret
     = value ++ "." ++
       Crypto.hex (Crypto.hmac_sha256 (Crypto.utf8 secret) (Crypto.utf8 value))) /\
  Auth.signCookie "tok123" "secretA"
  = "tok123.572db504aac38c25075e6a8b2bcd93f460783f2a79890940ef3b271491ae69a8" /\
  Auth.verifyCookie (Auth.signCookie "tok123" "secretA") "secretA" = Some "tok123" /\
  Auth.verifyCookie (Auth.signCookie "tok123" "secretA") "secretB" = None /\
  Auth.verifyCookie "tok123" "secretA" = None.
Proof.
  split; [intros; reflexivity|].
  repeat split; vm_compute; reflexivity.
Qed.

(** C10. The sign/verify round trip fails for a value that contains the
    separator: whatever the secret, verifying the signed form of a value
    with a dot in it gives null, not the value. *)
Theorem round_trip_fails_on_dotted_value (value secret : string) :
  occurrences "." value <> 0 ->
  Auth.verifyCookie (Auth.signCookie value secret) secret = None.
Proof.
  intros H. apply verifyCookie_wrong_part_count.
  unfold Auth.signCookie.
  rewrite !occurrences_append.
  generalize (occurrences "." (Crypto.createHmac_sha256_hex secret value)).
  intros n. cbn [occurrences Ascii.eqb Bool.eqb]. lia.
Qed.

Lemma round_trip_fails_on_dotted_value_witness :
  occurrences "." "a.b" <> 0 /\
  Auth.verifyCookie (Auth.signCookie "a.b" "secretA") "secretA" = None.
Proof.
  split.
  - simpl. lia.
  - apply (round_trip_fails_on_dotted_value "a.b" "secretA"). simpl. lia.
Defined.

(** The round trip succeeds for every value without a separator. *)
Lemma round_trip_dot_free_value (value secret : string) :
  occurrences "." value = 0 ->
  Auth.verifyCookie (Auth.signCookie value secret) secret = Some value.
Proof.
  intros H. unfold Auth.signCookie.
  change ("." ++ ?s) with (String "." s).
  rewrite verifyCookie_two_parts by (assumption || apply signature_dot_free).
  now rewrite String.eqb_refl.
Qed.

Lemma signCookie_occurrences value secret :
  occurrences "." (Auth.signCookie value secret) = S (occurrences "." value).
Proof.
  unfold Auth.signCookie. rewrite !occurrences_append.
  rewrite signature_dot_free. cbn [occurrences Ascii.eqb Bool.eqb]. lia.
Qed.

Lemma signCookie_empty_value secret :
  Auth.signCookie EmptyString secret
  = String "." (Crypto.createHmac_sha256_hex secret EmptyString).
Proof. reflexivity. Qed.

(** The code against the design document's [verify]. *)
Lemma verifyCookie_design_cases (signedValue secret : string) :
  Auth.verifyCookie signedValue secret
  = if String.eqb signedValue (Auth.signCookie EmptyString secret)
    then Some EmptyString
    else Design.verify signedValue secret.
Proof.
  assert (Hne : forall s, occurrences "." s <> 1 ->
                  String.eqb s (Auth.signCookie EmptyString secret) = false).
  { intros s Hs. apply String.eqb_neq. intros ->.
    apply Hs. now rewrite signCookie_occurrences. }
  destruct (first_separator "." signedValue) as [H0 | (a & b & -> & Ha)].
  - rewrite verifyCookie_wrong_part_count, Hne by lia.
    unfold Design.verify. now rewrite split_first_none.
  - unfold Design.verify. rewrite split_first_at_separator by assumption.
    destruct (Nat.eq_dec (occurrences "." b) 0) as [Hb | Hb].
    + rewrite verifyCookie_two_parts by assumption.
      destruct a as [|c a].
      * change (EmptyString ++ String "." b) with (String "." b).
        rewrite signCookie_empty_value.
        cbn [String.eqb]. rewrite Ascii.eqb_refl.
        cbn [orb].
        now destruct (String.eqb b _).
      * rewrite signCookie_empty_value.
        change (String c a ++ String "." b) with (String c (a ++ String "." b)).
        cbn [occurrences] in Ha.
        destruct (Ascii.eqb c ".") eqn:Hc; [discriminate|].
        cbn [String.eqb]. rewrite Hc.
        cbn [String.eqb orb andb].
        destruct b as [|c' b]; cbn [String.eqb].
        -- destruct (Crypto.createHmac_sha256_hex secret (String c a)) eqn:E;
             [now apply signature_not_empty in E | reflexivity].
        -- reflexivity.
    + assert (Hcount : occurrences "." (a ++ String "." b) <> 1).
      { rewrite occurrences_append. cbn [occurrences Ascii.eqb Bool.eqb]. lia. }
      rewrite verifyCookie_wrong_part_count, Hne by assumption.
      rewrite (signature_has_no_dot secret a b Hb).
      now destruct (String.eqb a EmptyString || String.eqb b EmptyString).
Qed.

(** C4, as the code has it.  [verifyCookie] cuts at every [.] and returns
    null unless that gives exactly two parts; with two parts it returns null
    on a signature mismatch and the first part on a match.  It agrees with
    the design document's [verify] on every input but one: the signed form
    of the empty value, whose first part is empty and which it accepts,
    returning the empty string. *)
Theorem verifyCookie_agrees_with_design_but_for_empty_value
    (signedValue secret : string) :
  Auth.verifyCookie signedValue secret
  = if String.eqb signedValue (Auth.signCookie EmptyString secret)
    then Some EmptyString
    else Design.verify signedValue secret.
Proof. exact (verifyCookie_design_cases signedValue secret). Qed.

(** The input on which the code and the design document differ. *)
Lemma verifyCookie_accepts_empty_value :
  let signature :=
    "ac9b0762c87c13dbea050ec80640017f854fdf031ff1602601a98ceea606cec7" in
  let signedValue := "." ++ signature in
  Design.split_first "." signedValue = Some (EmptyString, signature) /\
  Auth.verifyCookie signedValue "secretA" = Some EmptyString /\
  Design.verify signedValue "secretA" = None.
Proof. repeat split; vm_compute; reflexivity. Qed.

(* ===================================================================== *)
(** ** The Session Manager                                                 *)
(* ===================================================================== *)

Lemma SESSION_DURATION_ms : Auth.SESSION_DURATION = 604800000%Z.
Proof. reflexivity. Qed.

(** [createSession] always returns; the session carries the clock reading
    and that reading plus the session duration. *)
Lemma createSession_returns (w : World) :
  exists token w',
    Auth.createSession w
    = (Ok (token, mkSession (clock w) (clock w + Auth.SESSION_DURATION)), w') /\
    files w' = files w /\ clock w' = clock w.
Proof.
  unfold Auth.createSession, Auth.generateSessionToken, bind, randomBytes, Date_now, ret.
  cbn [clock files]. eexists _, _. split; [reflexivity|]. split; reflexivity.
Qed.

(** [isSessionValid] on a session record: valid iff [expiresAt] is set and
    the clock reads strictly less. *)
Lemma isSessionValid_own (s : Session) (w : World) :
  Auth.isSessionValid (Own s) w
  = (Ok (negb (expiresAt s =? 0)%Z && (clock w <? expiresAt s)%Z), w).
Proof.
  unfold Auth.isSessionValid.
  destruct (expiresAt s =? 0)%Z; reflexivity.
Qed.

(** C5. Session lifetime and strict expiry boundary.  With the clock at or
    after the epoch, [createSession] returns a session whose [expiresAt] is
    its [createdAt] plus 604,800,000 ms; that session is valid exactly when
    the clock at the check reads strictly less than [expiresAt]: valid one
    millisecond before seven days have passed, invalid at seven days. *)
Theorem session_lifetime_and_expiry_boundary (w : World) :
  (0 <= clock w)%Z ->
  exists token s w',
    Auth.createSession w = (Ok (token, s), w') /\
    createdAt s = clock w /\
    expiresAt s = (createdAt s + 604800000)%Z /\
    (forall w2, Auth.isSessionValid (Own s) w2
                = (Ok (bool_decide (clock w2 < expiresAt s)%Z), w2)) /\
    (forall w2, Auth.isSessionValid (Own s) (at_time (clock w + 604800000 - 1) w2)
                = (Ok true, at_time (clock w + 604800000 - 1) w2)) /\
    (forall w2, Auth.isSessionValid (Own s) (at_time (clock w + 604800000) w2)
                = (Ok false, at_time (clock w + 604800000) w2)).
Proof.
  intros Hepoch.
  destruct (createSession_returns w) as (token & w' & Hc & _ & _).
  exists token, (mkSession (clock w) (clock w + Auth.SESSION_DURATION)), w'.
  rewrite SESSION_DURATION_ms in *. cbn [createdAt expiresAt].
  assert (Hvalid : forall w2,
    Auth.isSessionValid (Own (mkSession (clock w) (clock w + 604800000))) w2
    = (Ok (bool_decide (clock w2 < clock w + 604800000)%Z), w2)).
  { intros w2. rewrite isSessionValid_own. cbn [expiresAt].
    destruct (Z.eqb_spec (clock w + 604800000) 0) as [E|_]; [lia|].
    cbn [negb andb]. do 2 f_equal.
    destruct (Z.ltb_spec (clock w2) (clock w + 604800000));
      [rewrite bool_decide_eq_true_2 | rewrite bool_decide_eq_false_2]; auto; lia. }
  repeat split; try assumption; try reflexivity.
  - intros w2. rewrite Hvalid. cbn [clock at_time].
    rewrite bool_decide_eq_true_2; [reflexivity | lia].
  - intros w2. rewrite Hvalid. cbn [clock at_time].
    rewrite bool_decide_eq_false_2; [reflexivity | lia].
Qed.

(* ===================================================================== *)
(** ** The Document Store                                                  *)
(* ===================================================================== *)

Lemma string_length_append (a b : string) :
  String.length (a ++ b) = String.length a + String.length b.
Proof. induction a as [|c a IH]; simpl; [reflexivity | now rewrite IH]. Qed.

(** The temporary file is another file than the document. *)
Lemma temp_file_distinct (DATA_FILE : string) : DATA_FILE ++ ".tmp" <> DATA_FILE.
Proof.
  intros E. apply (f_equal String.length) in E.
  rewrite string_length_append in E. simpl in E. lia.
Qed.

(** A file-system call takes the head of the plan and leaves the rest. *)
Lemma next_outcome_eq (w : World) :
  next_outcome w = (List.hd Proceed (plan w), with_plan (List.tl (plan w)) w).
Proof. destruct w as [fs [|o p] t r n]; reflexivity. Qed.

Lemma readData_eq (DATA_FILE : string) (w : World) :
  Storage.readData DATA_FILE w
  = (read_result (List.hd Proceed (plan w)) (files w !! DATA_FILE),
     with_plan (List.tl (plan w)) w).
Proof.
  unfold Storage.readData, try_catch, bind, fs.readFile.
  rewrite next_outcome_eq.
  destruct (List.hd Proceed (plan w)); try reflexivity.
  cbn [files with_plan].
  destruct (files w !! DATA_FILE) as [[d|text]|]; reflexivity.
Qed.

(** What [writeData] does, by the first two entries of the plan. *)
Lemma writeData_eq (DATA_FILE : string) (data : Document) (w : World) :
  let tempFile := DATA_FILE ++ ".tmp" in
  Storage.writeData DATA_FILE data w
  = match plan w with
    | Fail :: p => (Throw EIO, with_plan p w)
    | FailPartial residue :: p =>
        (Throw EIO, with_files (insert tempFile residue) (with_plan p w))
    | Proceed :: Proceed :: p =>
        (Ok tt, with_files (fun fs => <[DATA_FILE := Json data]>
                                         (delete tempFile (<[tempFile := Json data]> fs)))
                           (with_plan p w))
    | Proceed :: _ :: p =>
        (Throw EIO, with_files (insert tempFile (Json data)) (with_plan p w))
    | [Proceed] | [] =>
        (Ok tt, with_files (fun fs => <[DATA_FILE := Json data]>
                                         (delete tempFile (<[tempFile := Json data]> fs)))
                           (with_plan [] w))
    end.
Proof.
  unfold Storage.writeData, try_catch, bind, fs.writeFile, fs.rename, JSON_stringify.
  destruct w as [fs p t r n].
  destruct p as [|[| |residue] [|[| |residue'] p]];
    cbn [next_outcome plan files with_files with_plan clock random drawn];
    rewrite ?lookup_insert_eq; reflexivity.
Qed.

(** Along every run of [writeData], whatever is interleaved with it sees the
    document file unchanged until the rename, and the new document after. *)
Lemma write_steps_document (DATA_FILE : string) (data : Document)
    (fs0 : gmap string file_content) (phase : write_phase)
    (fs : gmap string file_content) :
  rtc (write_step DATA_FILE data) (Writing, fs0) (phase, fs) ->
  fs !! DATA_FILE
  = match phase with
    | Finished => Some (Json data)
    | _ => fs0 !! DATA_FILE
    end /\
  (phase = Renaming -> fs !! (DATA_FILE ++ ".tmp") = Some (Json data)).
Proof.
  pose proof (temp_file_distinct DATA_FILE) as Hne.
  set (holds := fun st : write_phase * gmap string file_content =>
    snd st !! DATA_FILE
    = match fst st with
      | Finished => Some (Json data)
      | _ => fs0 !! DATA_FILE
      end /\
    (fst st = Renaming -> snd st !! (DATA_FILE ++ ".tmp") = Some (Json data))).
  change (rtc (write_step DATA_FILE data) (Writing, fs0) (phase, fs) ->
          holds (phase, fs)).
  generalize (phase, fs). clear phase fs.
  apply rtc_ind_r; unfold holds.
  - split; [reflexivity | discriminate].
  - intros mid final _ Hstep [IHfile IHtmp].
    inversion Hstep; subst; unfold JSON_stringify; cbn [fst snd] in *.
    + rewrite lookup_insert_ne by assumption. split; [assumption | discriminate].
    + rewrite lookup_insert_ne by assumption. split; [assumption|].
      intros _. apply lookup_insert_eq.
    + split; [assumption | discriminate].
    + rewrite lookup_insert_eq. split; [reflexivity | discriminate].
    + split; [assumption | discriminate].
Qed.

(** The run [writeData] makes under a fault plan is one of these runs. *)
Lemma writeData_run (DATA_FILE : string) (data : Document) (w : World) :
  exists phase,
    rtc (write_step DATA_FILE data)
        (Writing, files w)
        (phase, files (snd (Storage.writeData DATA_FILE data w))) /\
    (phase = Finished \/ phase = Failed) /\
    (phase = Finished <-> fst (Storage.writeData DATA_FILE data w) = Ok tt).
Proof.
  rewrite writeData_eq. cbv zeta.
  destruct w as [fs p t r n].
  assert (Hdone : rtc (write_step DATA_FILE data) (Writing, fs)
            (Finished, <[DATA_FILE := Json data]>
                         (delete (DATA_FILE ++ ".tmp")
                                 (<[DATA_FILE ++ ".tmp" := Json data]> fs)))).
  { eapply rtc_l; [apply step_written|].
    eapply rtc_l; [apply step_renamed|]. apply rtc_refl. }
  assert (Hrename : rtc (write_step DATA_FILE data) (Writing, fs)
            (Failed, <[DATA_FILE ++ ".tmp" := Json data]> fs)).
  { eapply rtc_l; [apply step_written|].
    eapply rtc_l; [apply step_rename_fails|]. apply rtc_refl. }
  assert (Hwrite : rtc (write_step DATA_FILE data) (Writing, fs) (Failed, fs)).
  { eapply rtc_l; [apply step_write_fails|]. apply rtc_refl. }
  assert (Htorn : forall residue,
            rtc (write_step DATA_FILE data) (Writing, fs)
                (Failed, <[DATA_FILE ++ ".tmp" := residue]> fs)).
  { intros residue. eapply rtc_l; [apply (step_piece _ _ _ residue)|].
    eapply rtc_l; [apply step_write_fails|]. apply rtc_refl. }
  destruct p as [|[| |residue] [|[| |residue'] p]];
    cbn [plan files with_files with_plan clock random drawn fst snd];
    first
      [ exists Finished; split; [exact Hdone|];
        split; [now left|]; split; intros; reflexivity
      | exists Failed; split; [first [exact Hrename | exact Hwrite | apply Htorn]|];
        split; [now right|]; split; intros; discriminate ].
Qed.

(** C2. [writeData] is atomic with respect to failure.  Whatever the
    document and wherever a file-system call fails (the temporary file may
    be left with any content), the stored file is the one from before the
    write, and so is what [readData] returns afterwards; a write that
    succeeds leaves exactly the new document.  The run [writeData] makes is
    a run of [write_step], and in every state of every such run the document
    file holds the old content, or the new document once the rename is
    done: a reader never meets anything else. *)
Theorem writeData_atomic (DATA_FILE : string) (data : Document) (w : World) :
  match Storage.writeData DATA_FILE data w with
  | (Ok _, w') =>
      calm 2 w = true /\
      files w' !! DATA_FILE = Some (Json data) /\
      fst (Storage.readData DATA_FILE (with_plan [] w')) = Ok data
  | (Throw _, w') =>
      calm 2 w = false /\
      files w' !! DATA_FILE = files w !! DATA_FILE /\
      forall p, fst (Storage.readData DATA_FILE (with_plan p w'))
                = fst (Storage.readData DATA_FILE (with_plan p w))
  end /\
  (exists phase,
     rtc (write_step DATA_FILE data) (Writing, files w)
         (phase, files (snd (Storage.writeData DATA_FILE data w)))) /\
  (forall phase fs,
     rtc (write_step DATA_FILE data) (Writing, files w) (phase, fs) ->
     fs !! DATA_FILE
     = match phase with
       | Finished => Some (Json data)
       | _ => files w !! DATA_FILE
       end).
Proof.
  pose proof (temp_file_distinct DATA_FILE) as Hne.
  split; [|split].
  - rewrite writeData_eq. cbv zeta.
    destruct w as [fs p t r n].
    destruct p as [|[| |residue] [|[| |residue'] p]];
      cbn [plan files with_files with_plan clock random drawn calm
           List.firstn List.forallb is_proceed andb];
      (split; [reflexivity|]);
      rewrite ?readData_eq;
      cbn [plan files with_files with_plan clock random drawn fst List.hd];
      rewrite ?lookup_insert_eq, ?lookup_insert_ne by assumption;
      (split; [reflexivity|]);
      try reflexivity;
      intros p'; rewrite !readData_eq;
      cbn [plan files with_files with_plan clock random drawn fst List.hd];
      rewrite ?lookup_insert_ne by assumption; reflexivity.
  - destruct (writeData_run DATA_FILE data w) as (phase & Hrun & _).
    now exists phase.
  - intros phase fs Hrun.
    now apply (write_steps_document DATA_FILE data (files w) phase fs).
Qed.

(** With the file in place and no fault in [mkdir] and [access],
    [initializeData] does nothing but consume the two plan entries. *)
Lemma initializeData_existing (DATA_DIR DATA_FILE : string) (w : World) :
  is_Some (files w !! DATA_FILE) -> calm 2 w = true ->
  Storage.initializeData DATA_DIR DATA_FILE w
  = (Ok tt, with_plan (List.skipn 2 (plan w)) w).
Proof.
  intros [c Hc] Hcalm.
  unfold Storage.initializeData, try_catch, bind, fs.mkdir, fs.access.
  destruct w as [fs p t r n]. cbn [files] in Hc.
  unfold calm in Hcalm. cbn [plan] in Hcalm.
  destruct p as [|[| |residue] [|[| |residue'] p]]; try discriminate;
    cbn [next_outcome plan files with_plan clock random drawn List.skipn];
    rewrite Hc; reflexivity.
Qed.

Lemma hex_length (bs : list N) :
  String.length (Crypto.hex bs) = 2 * List.length bs.
Proof. induction bs as [|b bs IH]; simpl; [reflexivity | rewrite IH; lia]. Qed.

(** With no file and no faults, [initializeData] stores a fresh document
    whose secret is 32 random bytes in hexadecimal. *)
Lemma initializeData_fresh (DATA_DIR DATA_FILE : string) (w : World) :
  files w !! DATA_FILE = None -> plan w = [] ->
  exists secret w',
    Storage.initializeData DATA_DIR DATA_FILE w = (Ok tt, w') /\
    String.length secret = 64 /\
    files w' !! DATA_FILE = Some (Json (Storage.DEFAULT_DATA secret)) /\
    plan w' = [].
Proof.
  intros Hnone Hplan.
  destruct w as [fs p t r n]. cbn [files plan] in *. subst p.
  unfold Storage.initializeData, try_catch, bind, fs.mkdir, fs.access, randomBytes.
  cbn [next_outcome plan files clock random drawn].
  rewrite Hnone. rewrite writeData_eq.
  cbn [plan files with_files with_plan clock random drawn].
  exists (Crypto.hex (List.map (fun i => N.land (r i) 0xFF) (List.seq n 32))).
  eexists. split; [reflexivity|].
  split; [now rewrite hex_length, List.length_map, List.length_seq|].
  cbn [files plan with_files with_plan]. rewrite lookup_insert_eq.
  split; reflexivity.
Qed.


(** Two calls in a row, starting without a file: the second changes
    nothing the first has stored. *)
Lemma initializeData_twice (DATA_DIR DATA_FILE : string) (w : World) :
  files w !! DATA_FILE = None -> plan w = [] ->
  let w1 := snd (Storage.initializeData DATA_DIR DATA_FILE w) in
  exists secret w2,
    files w1 !! DATA_FILE = Some (Json (Storage.DEFAULT_DATA secret)) /\
    Storage.initializeData DATA_DIR DATA_FILE w1 = (Ok tt, w2) /\
    files w2 = files w1.
Proof.
  intros Hnone Hplan.
  destruct (initializeData_fresh DATA_DIR DATA_FILE w Hnone Hplan)
    as (secret & w' & Hinit & _ & Hfile & Hplan').
  rewrite Hinit. cbn [snd].
  exists secret. eexists. split; [assumption|]. split.
  - apply initializeData_existing; [rewrite Hfile; eauto|].
    unfold calm. now rewrite Hplan'.
  - reflexivity.
Qed.

Example sample_request_is_authenticated :
  fst (Api.isAuthenticated sample_data_file sample_request sample_world)
  = Ok (JsBool true).
Proof. vm_compute. reflexivity. Qed.

(* ===================================================================== *)
(** ** The Auth Gate                                                       *)
(* ===================================================================== *)

(** [isAuthenticated] step by step: which file-system calls it makes, what
    each can return, and the world it leaves. *)
Lemma isAuthenticated_eq (DATA_FILE : string) (req : Api.Request) (w : World) :
  Api.isAuthenticated DATA_FILE req w
  = match Api.parseCookies req !! Api.COOKIE_NAME with
    | None => (Ok (JsBool false), w)
    | Some signedSession =>
        if String.eqb signedSession EmptyString then (Ok (JsBool false), w)
        else
          let w1 := with_plan (List.tl (plan w)) w in
          match read_result (List.hd Proceed (plan w)) (files w !! DATA_FILE) with
          | Throw e => (Throw e, w1)
          | Ok d =>
              match Auth.verifyCookie signedSession (sessionSecret d) with
              | None => (Ok (JsBool false), w1)
              | Some token =>
                  if String.eqb token EmptyString then (Ok (JsBool false), w1)
                  else
                    let w2 := with_plan (List.tl (List.tl (plan w))) w in
                    match read_result (List.hd Proceed (List.tl (plan w)))
                                      (files w !! DATA_FILE) with
                    | Throw e => (Throw e, w2)
                    | Ok d' =>
                        (Ok (session_verdict (get_property (sessions d') token) (clock w)),
                         w2)
                    end
              end
          end
    end.
Proof.
  unfold Api.isAuthenticated.
  destruct (Api.parseCookies req !! Api.COOKIE_NAME) as [signedSession|];
    [|reflexivity].
  destruct (String.eqb signedSession EmptyString); [reflexivity|].
  unfold Storage.getSessionSecret, Storage.getSessions, bind, ret.
  rewrite readData_eq.
  destruct (read_result (List.hd Proceed (plan w)) (files w !! DATA_FILE))
    as [d|e]; [|reflexivity].
  destruct (Auth.verifyCookie signedSession (sessionSecret d)) as [token|];
    [|reflexivity].
  destruct (String.eqb token EmptyString); [reflexivity|].
  rewrite readData_eq.
  cbn [plan files with_plan clock random drawn].
  destruct (read_result (List.hd Proceed (List.tl (plan w))) (files w !! DATA_FILE))
    as [d'|e]; [|reflexivity].
  destruct (get_property (sessions d') token) as [s| |]; try reflexivity.
  rewrite isSessionValid_own. reflexivity.
Qed.

(** C9. [isAuthenticated] is a pure read: whatever the request, the stored
    files and the fault plan, every file is afterwards as it was before;
    an expired session met during the check stays in the session table.  The
    clock and the random stream are untouched as well. *)
Theorem isAuthenticated_pure_read
    (DATA_FILE : string) (req : Api.Request) (w : World) :
  let w' := snd (Api.isAuthenticated DATA_FILE req w) in
  files w' = files w /\
  stored_document (files w' !! DATA_FILE) = stored_document (files w !! DATA_FILE) /\
  clock w' = clock w /\ random w' = random w /\ drawn w' = drawn w.
Proof.
  rewrite isAuthenticated_eq.
  destruct (Api.parseCookies req !! Api.COOKIE_NAME) as [signedSession|];
    [|cbn; auto].
  destruct (String.eqb signedSession EmptyString); [cbn; auto|].
  cbv zeta.
  destruct (read_result (List.hd Proceed (plan w)) (files w !! DATA_FILE))
    as [d|e]; [|cbn; auto].
  destruct (Auth.verifyCookie signedSession (sessionSecret d)) as [token|];
    [|cbn; auto].
  destruct (String.eqb token EmptyString); [cbn; auto|].
  destruct (read_result (List.hd Proceed (List.tl (plan w))) (files w !! DATA_FILE))
    as [d'|e]; cbn; auto.
Qed.

(** The design document's [verify] never yields the empty value. *)
Lemma design_verify_not_empty (signedValue secret : string) :
  Design.verify signedValue secret <> Some EmptyString.
Proof.
  unfold Design.verify.
  destruct (Design.split_first "." signedValue) as [[value signature]|];
    [|discriminate].
  destruct value as [|c value]; cbn [String.eqb orb]; [discriminate|].
  destruct (String.eqb signature EmptyString); [discriminate|].
  destruct (String.eqb signature _); discriminate.
Qed.

(** The design document's [verify] is the code's [verifyCookie] followed
    by the callers' test [!token]. *)
Lemma design_verify_from_code (signedValue secret : string) :
  Design.verify signedValue secret
  = match Auth.verifyCookie signedValue secret with
    | Some token => if String.eqb token EmptyString then None else Some token
    | None => None
    end.
Proof.
  rewrite verifyCookie_design_cases.
  destruct (String.eqb signedValue (Auth.signCookie EmptyString secret)) eqn:E.
  - apply String.eqb_eq in E. subst signedValue.
    rewrite signCookie_empty_value. reflexivity.
  - pose proof (design_verify_not_empty signedValue secret) as Hne.
    destruct (Design.verify signedValue secret) as [token|]; [|reflexivity].
    destruct (String.eqb_spec token EmptyString) as [->|_];
      [now contradiction Hne | reflexivity].
Qed.

(** With the clock at or after the epoch, the verdict on a session table
    entry is the design document's [isValid]. *)
Lemma session_verdict_isValid (table : gmap string Session) (token : string) (now : Z) :
  (0 <= now)%Z ->
  truthy (session_verdict (get_property table token) now)
  = Design.isValid (table !! token) now.
Proof.
  intros Hnow. unfold get_property.
  destruct (table !! token) as [s|]; cbn [session_verdict truthy Design.isValid].
  - destruct (Z.eqb_spec (expiresAt s) 0) as [E|_]; [|reflexivity].
    cbn [negb andb]. symmetry. apply Z.ltb_ge. lia.
  - now destruct (bool_decide _).
Qed.

(** Two successful reads of one file give one document. *)
Lemma read_result_Ok (o : outcome) (stored : option file_content) (d : Document) :
  read_result o stored = Ok d -> stored_document stored = Some d /\ o = Proceed.
Proof.
  destruct o, stored as [[d0|text]|]; cbn; intros E; inversion E; auto.
Qed.

Lemma read_result_calm (stored : option file_content) (d : Document) :
  stored_document stored = Some d -> read_result Proceed stored = Ok d.
Proof. destruct stored as [[d0|text]|]; cbn; intros E; inversion E; auto. Qed.

(** C1, as the code has it.  With the clock at or after the epoch:
    whenever [isAuthenticated] returns, the truth value of what it returns
    is the verdict of the design document's Auth Gate on the request's
    cookie and the stored document, so an absent, malformed, wrongly signed,
    unknown or expired cookie is unauthenticated; it returns whenever the
    stored document can be read.  A failing storage read is not turned into
    a verdict: [isAuthenticated] has no handler for it, and with a non-empty
    session cookie in the request the error of the read is thrown to the
    caller. *)
Theorem gate_verdict_or_propagated_read_error
    (DATA_FILE : string) (req : Api.Request) (w : World) :
  (0 <= clock w)%Z ->
  let cookie := Api.parseCookies req !! Api.COOKIE_NAME in
  let stored := files w !! DATA_FILE in
  match Api.isAuthenticated DATA_FILE req w with
  | (Ok v, _) => truthy v = Design.authGate cookie (stored_document stored) (clock w)
  | (Throw e, _) =>
      (exists o, read_result o stored = Throw e) /\
      (exists signedSession, cookie = Some signedSession /\ signedSession <> EmptyString)
  end /\
  (calm 2 w = true -> is_Some (stored_document stored) ->
   exists v w', Api.isAuthenticated DATA_FILE req w = (Ok v, w')) /\
  (stored_document stored = None ->
   forall signedSession, cookie = Some signedSession -> signedSession <> EmptyString ->
   exists e w', Api.isAuthenticated DATA_FILE req w = (Throw e, w')).
Proof.
  intros Hepoch cookie stored. subst cookie stored.
  rewrite isAuthenticated_eq.
  destruct (Api.parseCookies req !! Api.COOKIE_NAME) as [signedSession|].
  2:{ split; [reflexivity|]. split; [eauto|]. intros _ c Hc. discriminate. }
  destruct (String.eqb_spec signedSession EmptyString) as [->|Hnonempty].
  { split; [|split; [eauto|]].
    - cbn [truthy Design.authGate].
      destruct (stored_document (files w !! DATA_FILE)); reflexivity.
    - intros _ c Hc Hne. injection Hc as <-. now contradiction Hne. }
  cbv zeta. unfold Design.authGate.
  split; [|split].
  - destruct (read_result (List.hd Proceed (plan w)) (files w !! DATA_FILE))
      as [d|e] eqn:Hread1; [|split; eauto].
    apply read_result_Ok in Hread1 as [Hstored _]. rewrite Hstored.
    rewrite design_verify_from_code.
    destruct (Auth.verifyCookie signedSession (sessionSecret d)) as [token|];
      [|reflexivity].
    destruct (String.eqb token EmptyString); [reflexivity|].
    destruct (read_result (List.hd Proceed (List.tl (plan w))) (files w !! DATA_FILE))
      as [d'|e] eqn:Hread2; [|split; eauto].
    apply read_result_Ok in Hread2 as [Hstored' _].
    rewrite Hstored in Hstored'. inversion Hstored'. subst d'.
    now apply session_verdict_isValid.
  - intros Hcalm [d Hd].
    assert (H1 : List.hd Proceed (plan w) = Proceed /\
                 List.hd Proceed (List.tl (plan w)) = Proceed).
    { unfold calm in Hcalm.
      destruct (plan w) as [|[| |r1] [|[| |r2] p]]; try discriminate; auto. }
    destruct H1 as [-> ->].
    rewrite (read_result_calm _ d Hd).
    destruct (Auth.verifyCookie signedSession (sessionSecret d)) as [token|]; [|eauto].
    destruct (String.eqb token EmptyString); eauto.
  - intros Hnone c Hc _. 
    destruct (read_result (List.hd Proceed (plan w)) (files w !! DATA_FILE))
      as [d|e] eqn:Hread1; [|eauto].
    apply read_result_Ok in Hread1 as [Hstored _]. congruence.
Qed.

Lemma gate_verdict_witness :
  (0 <= clock sample_world)%Z /\
  exists v w',
    Api.isAuthenticated sample_data_file sample_request sample_world = (Ok v, w').
Proof.
  split.
  - unfold sample_world, sample_time. cbn [clock]. lia.
  - apply (gate_verdict_or_propagated_read_error
             sample_data_file sample_request sample_world).
    + unfold sample_world, sample_time. cbn [clock]. lia.
    + reflexivity.
    + vm_compute. eauto.
Defined.

(** The gate throws where the design document has it answer "false": the
    document file is missing and the request carries a session cookie.  The
    handler for a credential reset calls the gate outside its [try] block
    and throws as well. *)
Lemma gate_throws_on_read_failure :
  files empty_world !! sample_data_file = None /\
  fst (Api.isAuthenticated sample_data_file sample_request empty_world)
  = Throw ENOENT /\
  fst (Api.handleResetCredentials sample_data_file sample_request empty_world)
  = Throw ENOENT.
Proof. repeat split; vm_compute; reflexivity. Qed.

(** What a truthy verdict tells about the request and the stored document. *)
Lemma authenticated_inv (DATA_FILE : string) (req : Api.Request) (w w1 : World)
    (v : js_value) :
  Api.isAuthenticated DATA_FILE req w = (Ok v, w1) -> truthy v = true ->
  exists signedSession d token s,
    Api.parseCookies req !! Api.COOKIE_NAME = Some signedSession /\
    String.eqb signedSession EmptyString = false /\
    stored_document (files w !! DATA_FILE) = Some d /\
    Auth.verifyCookie signedSession (sessionSecret d) = Some token /\
    String.eqb token EmptyString = false /\
    sessions d !! token = Some s /\
    (clock w < expiresAt s)%Z.
Proof.
  rewrite isAuthenticated_eq.
  destruct (Api.parseCookies req !! Api.COOKIE_NAME) as [signedSession|].
  2:{ intros E; inversion E; subst; discriminate. }
  destruct (String.eqb signedSession EmptyString) eqn:Hc.
  { intros E; inversion E; subst; discriminate. }
  cbv zeta.
  destruct (read_result (List.hd Proceed (plan w)) (files w !! DATA_FILE))
    as [d|e] eqn:Hread1; [|discriminate].
  apply read_result_Ok in Hread1 as [Hstored _].
  destruct (Auth.verifyCookie signedSession (sessionSecret d)) as [token|] eqn:Hv.
  2:{ intros E; inversion E; subst; discriminate. }
  destruct (String.eqb token EmptyString) eqn:Ht.
  { intros E; inversion E; subst; discriminate. }
  destruct (read_result (List.hd Proceed (List.tl (plan w))) (files w !! DATA_FILE))
    as [d'|e] eqn:Hread2; [|discriminate].
  apply read_result_Ok in Hread2 as [Hstored' _].
  rewrite Hstored in Hstored'. inversion Hstored'. subst d'.
  intros E Htruthy. inversion E. subst v w1. clear E.
  unfold get_property in Htruthy.
  destruct (sessions d !! token) as [s|] eqn:Hs.
  - cbn [session_verdict truthy] in Htruthy.
    apply andb_true_iff in Htruthy as [_ Hlt]. apply Z.ltb_lt in Hlt.
    exists signedSession, d, token, s. auto 10.
  - destruct (bool_decide _); discriminate.
Qed.



(** The sample session end to end: authenticated, logged out, and then
    refused although the cookie is the same. *)
Example logout_then_refused :
  let after := snd (Api.handleLogout sample_data_file sample_request sample_world) in
  fst (Api.isAuthenticated sample_data_file sample_request sample_world)
  = Ok (JsBool true) /\
  fst (Api.isAuthenticated sample_data_file sample_request after) = Ok JsUndefined.
Proof. split; vm_compute; reflexivity. Qed.

Lemma session_lifetime_witness :
  (0 <= clock sample_world)%Z /\
  exists token s w',
    Auth.createSession sample_world = (Ok (token, s), w') /\
    expiresAt s = (createdAt s + 604800000)%Z.
Proof.
  split.
  - unfold sample_world, sample_time. cbn [clock]. lia.
  - destruct (session_lifetime_and_expiry_boundary sample_world)
      as (token & s & w' & Hcreate & _ & Hexpires & _).
    + unfold sample_world, sample_time. cbn [clock]. lia.
    + exists token, s, w'. split; assumption.
Defined.


(* ===================================================================== *)
(** ** Logout                                                              *)
(* ===================================================================== *)

Lemma calm_S (n : nat) (w : World) :
  calm (S n) w
  = is_proceed (List.hd Proceed (plan w)) && calm n (with_plan (List.tl (plan w)) w).
Proof.
  unfold calm. destruct (plan w) as [|o p]; cbn; [|reflexivity].
  now destruct n.
Qed.

Lemma read_result_stored (o : outcome) (stored : option file_content) (d : Document) :
  stored_document stored = Some d ->
  read_result o stored = if is_proceed o then Ok d else Throw EIO.
Proof.
  intros H. destruct o; cbn [is_proceed]; [now apply read_result_calm| |]; reflexivity.
Qed.

(** The document file after [writeData], by whether a fault hits one of its
    two calls. *)
Lemma writeData_outcome (DATA_FILE : string) (data : Document) (w : World) :
  match Storage.writeData DATA_FILE data w with
  | (Ok _, w') => calm 2 w = true /\ files w' !! DATA_FILE = Some (Json data)
  | (Throw _, w') => calm 2 w = false /\ files w' !! DATA_FILE = files w !! DATA_FILE
  end.
Proof.
  pose proof (temp_file_distinct DATA_FILE) as Hne.
  rewrite writeData_eq. cbv zeta.
  destruct w as [fs p t r n].
  destruct p as [|[| |residue] [|[| |residue'] p]];
    cbn [plan files with_files with_plan clock random drawn calm
         List.firstn List.forallb is_proceed andb];
    (split; [reflexivity|]);
    rewrite ?lookup_insert_eq, ?lookup_insert_ne by assumption; reflexivity.
Qed.

Lemma saveSessions_eq (DATA_FILE : string) (table : gmap string Session) (w : World) :
  Storage.saveSessions DATA_FILE table w
  = match read_result (List.hd Proceed (plan w)) (files w !! DATA_FILE) with
    | Ok d => Storage.writeData DATA_FILE (with_sessions table d)
                                (with_plan (List.tl (plan w)) w)
    | Throw e => (Throw e, with_plan (List.tl (plan w)) w)
    end.
Proof.
  unfold Storage.saveSessions, bind. rewrite readData_eq.
  now destruct (read_result _ _).
Qed.

(** [handleLogout] step by step: up to three reads of the document, then
    the write; any error ends in the answer 500. *)
Lemma handleLogout_eq (DATA_FILE : string) (req : Api.Request) (w : World) :
  Api.handleLogout DATA_FILE req w
  = match Api.parseCookies req !! Api.COOKIE_NAME with
    | None => (Ok logged_out, w)
    | Some signedSession =>
        if String.eqb signedSession EmptyString then (Ok logged_out, w)
        else
          let stored := files w !! DATA_FILE in
          let w1 := with_plan (List.tl (plan w)) w in
          match read_result (List.hd Proceed (plan w)) stored with
          | Throw e => (Ok internal_server_error, w1)
          | Ok d =>
              match Auth.verifyCookie signedSession (sessionSecret d) with
              | None => (Ok logged_out, w1)
              | Some token =>
                  if String.eqb token EmptyString then (Ok logged_out, w1)
                  else
                    let w2 := with_plan (List.tl (plan w1)) w in
                    match read_result (List.hd Proceed (plan w1)) stored with
                    | Throw e => (Ok internal_server_error, w2)
                    | Ok d2 =>
                        let w3 := with_plan (List.tl (plan w2)) w in
                        match read_result (List.hd Proceed (plan w2)) stored with
                        | Throw e => (Ok internal_server_error, w3)
                        | Ok d3 =>
                            match Storage.writeData DATA_FILE
                                    (with_sessions (delete token (sessions d2)) d3) w3 with
                            | (Ok _, w') => (Ok logged_out, w')
                            | (Throw e, w') => (Ok internal_server_error, w')
                            end
                        end
                    end
              end
          end
    end.
Proof.
  unfold Api.handleLogout, try_catch.
  destruct (Api.parseCookies req !! Api.COOKIE_NAME) as [signedSession|];
    [|reflexivity].
  destruct (String.eqb signedSession EmptyString); [reflexivity|].
  unfold Storage.getSessionSecret, Storage.getSessions.
  unfold bind at 1. unfold bind at 1. unfold bind at 1.
  rewrite readData_eq. cbv zeta.
  destruct (read_result (List.hd Proceed (plan w)) (files w !! DATA_FILE))
    as [d|e]; [|reflexivity].
  cbn [ret].
  destruct (Auth.verifyCookie signedSession (sessionSecret d)) as [token|];
    [|reflexivity].
  destruct (String.eqb token EmptyString); [reflexivity|].
  unfold bind at 1. unfold bind at 1.
  rewrite readData_eq. cbn [plan files with_plan].
  destruct (read_result (List.hd Proceed (List.tl (plan w))) (files w !! DATA_FILE))
    as [d2|e]; [|reflexivity].
  cbn [ret]. rewrite saveSessions_eq. cbn [plan files with_plan].
  destruct (read_result (List.hd Proceed (List.tl (List.tl (plan w))))
              (files w !! DATA_FILE)) as [d3|e]; [|reflexivity].
  now destruct (Storage.writeData _ _ _) as [[[]|e] w'].
Qed.





(* ===================================================================== *)
(** ** Further checks of the model on concrete inputs                     *)
(* ===================================================================== *)

(** A message of two blocks (FIPS 180-4 example). *)
Example sha256_two_blocks :
  Crypto.hex (Crypto.sha256
    (Crypto.utf8 "abcdbcdecdefdefgefghfghighijhijkijkljklmklmnlmnomnopnopq"))
  = "248d6a61d20638b8e5c026930c3e6039a33ce45964ff2167f6ecedd419db06c1".
Proof. vm_compute. reflexivity. Qed.

(** A key longer than one block is hashed first. *)
Example hmac_long_key :
  Crypto.createHmac_sha256_hex
    "kkkkkkkkkkkkkkkkkkkkkkkkkkkkkkkkkkkkkkkkkkkkkkkkkkkkkkkkkkkkkkkkkkkkkkkkkkkkkkkkkkkkkkkkkkkkkkkkkkkk"
    "tok123"
  = "05563c779169bf06a9564e70f80909f81c8a59648318f6a3055578f279ef94f2".
Proof. vm_compute. reflexivity. Qed.

(** Code units from U+0080 on take two bytes: the key [clé] and the
    value [café.]. *)
Example hmac_latin1 :
  let e_acute := String (ascii_of_N 233) EmptyString in
  Crypto.createHmac_sha256_hex ("cl" ++ e_acute) ("caf" ++ e_acute ++ ".")
  = "8f3a75e7c6c4ee282e456dc0ec2c8eede10632c5a3c5023bd4ebb931e09bac75".
Proof. vm_compute. reflexivity. Qed.

(** A torn write: [writeFile] fails leaving a fragment in the temporary
    file; [writeData] throws, and the stored document reads back as before. *)
Example torn_write_keeps_document :
  let torn := with_plan [FailPartial (Malformed "{ sessionSec")] sample_world in
  let after := snd (Storage.writeData sample_data_file
                      (without_session "tok123" sample_document) torn) in
  fst (Storage.writeData sample_data_file
         (without_session "tok123" sample_document) torn) = Throw EIO /\
  files after !! (sample_data_file ++ ".tmp") = Some (Malformed "{ sessionSec") /\
  fst (Storage.readData sample_data_file after) = Ok sample_document.
Proof. repeat split; vm_compute; reflexivity. Qed.

(** A failing [rename] likewise: the new text sits in the temporary file and
    the stored document is the old one. *)
Example failed_rename_keeps_document :
  let w := with_plan [Proceed; Fail] sample_world in
  let after := snd (Storage.writeData sample_data_file
                      (without_session "tok123" sample_document) w) in
  fst (Storage.writeData sample_data_file
         (without_session "tok123" sample_document) w) = Throw EIO /\
  fst (Storage.readData sample_data_file after) = Ok sample_document.
Proof. repeat split; vm_compute; reflexivity. Qed.

(** Cookie headers as the gate reads them. *)
Example parseCookies_examples :
  Api.parseCookies (Api.mkRequest (Some "theme=dark; session=abc.def"))
    !! Api.COOKIE_NAME = Some "abc.def" /\
  Api.parseCookies (Api.mkRequest (Some "session=a=b")) !! Api.COOKIE_NAME = None /\
  Api.parseCookies (Api.mkRequest (Some "session=")) !! Api.COOKIE_NAME
    = Some EmptyString /\
  Api.parseCookies (Api.mkRequest None) !! Api.COOKIE_NAME = None.
Proof. repeat split; vm_compute; reflexivity. Qed.

(** The gate's verdicts on the sample document: a tampered signature, an
    unknown token and an expired session are all refused. *)
Example gate_examples :
  let tampered := Api.mkRequest
    (Some "session=tok123.572db504aac38c25075e6a8b2bcd93f460783f2a79890940ef3b271491ae69a9") in
  let unknown := Api.mkRequest
    (Some ("session=" ++ Auth.signCookie "other" "secretA")) in
  let expired := at_time (sample_time + 604800000) sample_world in
  fst (Api.isAuthenticated sample_data_file tampered sample_world) = Ok (JsBool false) /\
  fst (Api.isAuthenticated sample_data_file unknown sample_world) = Ok JsUndefined /\
  fst (Api.isAuthenticated sample_data_file sample_request expired) = Ok (JsBool false) /\
  files (snd (Api.isAuthenticated sample_data_file sample_request expired))
    = files expired.
Proof. repeat split; vm_compute; reflexivity. Qed.

(** A handler behind the gate does nothing without a verdict: when the gate
    throws, [handleResetCredentials] throws the same error from the same
    world, and when the verdict is falsy it answers 401. *)
Lemma handleResetCredentials_gate (DATA_FILE : string) (req : Api.Request) (w : World) :
  match Api.isAuthenticated DATA_FILE req w with
  | (Throw e, w') => Api.handleResetCredentials DATA_FILE req w = (Throw e, w')
  | (Ok v, w') =>
      truthy v = false ->
      Api.handleResetCredentials DATA_FILE req w
      = (Ok (Api.sendJSON 401 (Api.ErrorOnly "Unauthorized")), w')
  end.
Proof.
  unfold Api.handleResetCredentials, bind.
  destruct (Api.isAuthenticated DATA_FILE req w) as [[v|e] w']; [|reflexivity].
  intros ->. reflexivity.
Qed.

(* ===================================================================== *)
(** ** The accessors of the Document Store                                 *)
(* ===================================================================== *)

Lemma update_eq (DATA_FILE : string) (change : Document -> Document) (w : World) :
  update DATA_FILE change w
  = match read_result (List.hd Proceed (plan w)) (files w !! DATA_FILE) with
    | Ok d => Storage.writeData DATA_FILE (change d) (with_plan (List.tl (plan w)) w)
    | Throw e => (Throw e, with_plan (List.tl (plan w)) w)
    end.
Proof.
  unfold update, bind. rewrite readData_eq.
  now destruct (read_result _ _).
Qed.

(** Every setter is an [update]. *)
Lemma setters_are_updates (DATA_FILE : string) :
  (forall credentials,
     Storage.setUser DATA_FILE credentials
     = update DATA_FILE
         (with_user (match credentials with
                     | Some (name, hash) => Some (mkUser name hash)
                     | None => None
                     end))) /\
  (forall l, Storage.saveLinks DATA_FILE l = update DATA_FILE (with_links l)) /\
  (forall p, Storage.savePreferences DATA_FILE p = update DATA_FILE (with_preferences p)) /\
  (forall t, Storage.saveSessions DATA_FILE t = update DATA_FILE (with_sessions t)).
Proof.
  repeat split; try reflexivity.
  intros [[name hash]|]; reflexivity.
Qed.

(** An update returns exactly when the document can be read and no fault
    hits its three calls; then the file holds the changed document.  When it
    throws, the document file is as before. *)
Lemma update_outcome (DATA_FILE : string) (change : Document -> Document) (w : World) :
  match update DATA_FILE change w with
  | (Ok _, w') =>
      calm 3 w = true /\
      exists d, stored_document (files w !! DATA_FILE) = Some d /\
                files w' !! DATA_FILE = Some (Json (change d))
  | (Throw _, w') =>
      (calm 3 w = false \/ stored_document (files w !! DATA_FILE) = None) /\
      files w' !! DATA_FILE = files w !! DATA_FILE
  end.
Proof.
  rewrite update_eq, calm_S.
  destruct (read_result (List.hd Proceed (plan w)) (files w !! DATA_FILE))
    as [d|e] eqn:Hread.
  - apply read_result_Ok in Hread as [Hd ->]. cbn [is_proceed andb].
    pose proof (writeData_outcome DATA_FILE (change d)
                  (with_plan (List.tl (plan w)) w)) as Hwrite.
    destruct (Storage.writeData _ _ _) as [[[]|e] w'].
    + destruct Hwrite as [Hcalm Hfile]. split; [assumption|]. now exists d.
    + destruct Hwrite as [Hcalm Hfile]. split; [now left | assumption].
  - split; [|reflexivity].
    destruct (List.hd Proceed (plan w)); cbn [is_proceed andb]; try now left.
    right. destruct (files w !! DATA_FILE) as [[d|t]|]; cbn in *; congruence.
Qed.

(** With the document readable and no fault in its three calls, an update
    returns and stores the changed document. *)
Lemma update_calm (DATA_FILE : string) (change : Document -> Document)
    (w : World) (d : Document) :
  stored_document (files w !! DATA_FILE) = Some d -> calm 3 w = true ->
  exists w',
    update DATA_FILE change w = (Ok tt, w') /\
    files w' !! DATA_FILE = Some (Json (change d)) /\
    plan w' = List.skipn 3 (plan w) /\
    clock w' = clock w /\ random w' = random w /\ drawn w' = drawn w.
Proof.
  intros Hd Hcalm.
  rewrite update_eq, (read_result_stored _ _ d Hd).
  rewrite calm_S in Hcalm. apply andb_true_iff in Hcalm as [-> Hcalm].
  rewrite writeData_eq. cbv zeta.
  unfold calm in Hcalm. cbn [plan with_plan] in Hcalm.
  destruct w as [fs p t r n]. cbn [plan files with_plan clock random drawn] in *.
  destruct p as [|o1 [|[| |r2] [|[| |r3] p]]];
    cbn [List.tl List.firstn List.forallb is_proceed andb] in Hcalm;
    try discriminate;
    cbn [List.tl plan files with_files with_plan clock random drawn List.skipn];
    eexists; (split; [reflexivity|]);
    cbn [plan files with_files with_plan clock random drawn];
    rewrite lookup_insert_eq; auto 10.
Qed.

(** X1. Each setter of the store, [setUser], [saveLinks], [savePreferences]
    and [saveSessions], either returns, and then the stored document is the
    old one with that one field replaced and every other field kept, or
    throws, and then the document file is as it was.  It returns exactly when
    the document can be read and no fault hits its read, write and rename. *)
Theorem setters_replace_one_field (DATA_FILE : string) (w : World) :
  (forall name hash,
     stores_or_keeps DATA_FILE (Storage.setUser DATA_FILE (Some (name, hash)))
                     (with_user (Some (mkUser name hash))) w) /\
  stores_or_keeps DATA_FILE (Storage.setUser DATA_FILE None) (with_user None) w /\
  (forall l, stores_or_keeps DATA_FILE (Storage.saveLinks DATA_FILE l) (with_links l) w) /\
  (forall p, stores_or_keeps DATA_FILE (Storage.savePreferences DATA_FILE p)
                             (with_preferences p) w) /\
  (forall t, stores_or_keeps DATA_FILE (Storage.saveSessions DATA_FILE t)
                             (with_sessions t) w).
Proof.
  repeat split; intros; unfold stores_or_keeps;
    match goal with
    | |- context [Storage.setUser ?f ?c ?w] =>
        change (Storage.setUser f c w) with
          (update f (with_user (match c with
                                | Some (n, h) => Some (mkUser n h)
                                | None => None
                                end)) w)
    | |- context [Storage.saveLinks ?f ?l ?w] =>
        change (Storage.saveLinks f l w) with (update f (with_links l) w)
    | |- context [Storage.savePreferences ?f ?p ?w] =>
        change (Storage.savePreferences f p w) with (update f (with_preferences p) w)
    | |- context [Storage.saveSessions ?f ?t ?w] =>
        change (Storage.saveSessions f t w) with (update f (with_sessions t) w)
    end;
    apply update_outcome.
Qed.

Lemma getter_eq (DATA_FILE : string) {A} (field : Document -> A) (w : World) :
  bind (Storage.readData DATA_FILE) (fun data => ret (field data)) w
  = (match read_result (List.hd Proceed (plan w)) (files w !! DATA_FILE) with
     | Ok d => Ok (field d)
     | Throw e => Throw e
     end, with_plan (List.tl (plan w)) w).
Proof.
  unfold bind. rewrite readData_eq. now destruct (read_result _ _).
Qed.




(* ===================================================================== *)
(** ** Initialization and the first run                                    *)
(* ===================================================================== *)

Lemma hex_digit_is_hex (n : N) : is_hex_digit (Crypto.hex_digit n) = true.
Proof.
  unfold Crypto.hex_digit.
  generalize (N.to_nat n). intros k.
  do 16 (destruct k as [|k]; [reflexivity|]).
  destruct k; reflexivity.
Qed.

Lemma hex_all_hex (bs : list N) : all_chars is_hex_digit (Crypto.hex bs) = true.
Proof.
  induction bs as [|b bs IH]; [reflexivity|].
  cbn [Crypto.hex all_chars]. now rewrite !hex_digit_is_hex, IH.
Qed.

(** The gate returns whenever the document can be read and no fault hits
    its two reads. *)
Lemma isAuthenticated_returns (DATA_FILE : string) (req : Api.Request) (w : World)
    (d : Document) :
  stored_document (files w !! DATA_FILE) = Some d -> calm 2 w = true ->
  exists v w', Api.isAuthenticated DATA_FILE req w = (Ok v, w').
Proof.
  intros Hd Hcalm. rewrite isAuthenticated_eq.
  destruct (Api.parseCookies req !! Api.COOKIE_NAME) as [signedSession|]; [|eauto].
  destruct (String.eqb signedSession EmptyString); [eauto|].
  cbv zeta. rewrite !(read_result_stored _ _ d Hd).
  rewrite 2 calm_S in Hcalm. cbn [plan with_plan] in Hcalm.
  apply andb_true_iff in Hcalm as [-> Hcalm].
  apply andb_true_iff in Hcalm as [-> _].
  destruct (Auth.verifyCookie signedSession (sessionSecret d)) as [token|]; [|eauto].
  destruct (String.eqb token EmptyString); eauto.
Qed.

(** With an empty session table stored, no request is authenticated. *)
Lemma empty_table_authenticates_nobody (DATA_FILE : string) (req : Api.Request)
    (w : World) (d : Document) :
  stored_document (files w !! DATA_FILE) = Some d -> sessions d = ∅ ->
  match Api.isAuthenticated DATA_FILE req w with
  | (Ok v, _) => truthy v = false
  | (Throw _, _) => calm 2 w = false
  end.
Proof.
  intros Hd Hempty.
  destruct (Api.isAuthenticated DATA_FILE req w) as [[v|e] w'] eqn:Hauth.
  - destruct (truthy v) eqn:Hv; [|reflexivity].
    destruct (authenticated_inv _ _ _ _ _ Hauth Hv)
      as (c & d' & token & s & _ & _ & Hd' & _ & _ & Hs & _).
    rewrite Hd in Hd'. injection Hd' as <-.
    rewrite Hempty, lookup_empty in Hs. discriminate.
  - destruct (calm 2 w) eqn:Hcalm; [|reflexivity].
    destruct (isAuthenticated_returns DATA_FILE req w d Hd Hcalm) as (v & w'' & H).
    congruence.
Qed.

Lemma handleSetupCheck_eq (DATA_FILE : string) (w : World) :
  Api.handleSetupCheck DATA_FILE w
  = (Ok (match read_result (List.hd Proceed (plan w)) (files w !! DATA_FILE) with
         | Ok d => Api.Data 200 (negb (bool_decide (is_Some (user d))))
         | Throw _ =>
             Api.Refusal (Api.sendJSON 500 (Api.ErrorOnly "Internal server error"))
         end),
     with_plan (List.tl (plan w)) w).
Proof.
  unfold Api.handleSetupCheck, Storage.getUser, try_catch, bind, ret.
  rewrite readData_eq. now destruct (read_result _ _).
Qed.

(** X3. The first run.  With no document file and no faults,
    [initializeData] stores a document with a fresh secret of 64 hexadecimal
    digits, no account, the default preferences, no links and no sessions.
    On that document the setup check answers that setup is needed, and no
    request is authenticated, whatever cookie it carries. *)
Theorem initializeData_first_run (DATA_DIR DATA_FILE : string) (w : World) :
  files w !! DATA_FILE = None -> plan w = [] ->
  exists secret w',
    Storage.initializeData DATA_DIR DATA_FILE w = (Ok tt, w') /\
    String.length secret = 64 /\
    all_chars is_hex_digit secret = true /\
    files w' !! DATA_FILE
    = Some (Json (mkDocument secret None Storage.default_preferences [] ∅)) /\
    fst (Api.handleSetupCheck DATA_FILE w') = Ok (Api.Data 200 true) /\
    forall req w2,
      files w2 !! DATA_FILE = files w' !! DATA_FILE ->
      match Api.isAuthenticated DATA_FILE req w2 with
      | (Ok v, _) => truthy v = false
      | (Throw _, _) => calm 2 w2 = false
      end.
Proof.
  intros Hnone Hplan.
  destruct w as [fs p t r n]. cbn [files plan] in *. subst p.
  unfold Storage.initializeData, try_catch, bind, fs.mkdir, fs.access, randomBytes.
  cbn [next_outcome plan files clock random drawn].
  rewrite Hnone. rewrite writeData_eq.
  cbn [plan files with_files with_plan clock random drawn].
  set (secret := Crypto.hex (List.map (fun i => N.land (r i) 0xFF) (List.seq n 32))).
  exists secret. eexists. split; [reflexivity|].
  split; [unfold secret; now rewrite hex_length, List.length_map, List.length_seq|].
  split; [apply hex_all_hex|].
  assert (Hfile : forall fs0 : gmap string file_content,
            <[DATA_FILE := Json (Storage.DEFAULT_DATA secret)]> fs0 !! DATA_FILE
            = Some (Json (mkDocument secret None Storage.default_preferences [] ∅)))
    by (intros; apply lookup_insert_eq).
  split; [cbn [files with_files with_plan]; apply Hfile|].
  split.
  - rewrite handleSetupCheck_eq. cbn [fst plan files with_files with_plan List.hd].
    rewrite Hfile. reflexivity.
  - intros req w2 Hsame. cbn [files with_files with_plan] in Hsame.
    rewrite Hfile in Hsame.
    apply (empty_table_authenticates_nobody DATA_FILE req w2
             (mkDocument secret None Storage.default_preferences [] ∅));
      [now rewrite Hsame | reflexivity].
Qed.

Lemma initializeData_first_run_witness :
  files empty_world !! sample_data_file = None /\
  plan empty_world = [] /\
  exists w',
    Storage.initializeData sample_data_dir sample_data_file empty_world = (Ok tt, w') /\
    fst (Api.handleSetupCheck sample_data_file w') = Ok (Api.Data 200 true).
Proof.
  split; [reflexivity|]. split; [reflexivity|].
  destruct (initializeData_first_run sample_data_dir sample_data_file empty_world
              eq_refl eq_refl)
    as (secret & w' & Hinit & _ & _ & _ & Hcheck & _).
  exists w'. split; assumption.
Defined.

(** X4. The catch block of [initializeData] catches every error.  When
    [mkdir] or [access] fails for a reason other than a missing file, and the
    write that follows succeeds, [initializeData] returns normally and the
    stored document is replaced by a fresh one: the account, the links and
    the sessions are gone and the secret is new. *)
Theorem initializeData_overwrites_after_fault
    (DATA_DIR DATA_FILE : string) (w : World) (stored : file_content)
    (failing : outcome) (rest : list outcome) :
  files w !! DATA_FILE = Some stored ->
  is_proceed failing = false ->
  plan w = failing :: rest \/ plan w = Proceed :: failing :: rest ->
  calm 2 (with_plan rest w) = true ->
  exists secret w',
    Storage.initializeData DATA_DIR DATA_FILE w = (Ok tt, w') /\
    String.length secret = 64 /\
    files w' !! DATA_FILE
    = Some (Json (mkDocument secret None Storage.default_preferences [] ∅)) /\
    drawn w' = drawn w + 32.
Proof.
  intros Hstored Hfail Hplan Hcalm.
  destruct w as [fs p t r n]. cbn [files plan with_plan drawn] in *.
  set (secret := Crypto.hex (List.map (fun i => N.land (r i) 0xFF) (List.seq n 32))).
  exists secret.
  assert (Hlen : String.length secret = 64)
    by (unfold secret; now rewrite hex_length, List.length_map, List.length_seq).
  unfold calm in Hcalm. cbn [plan] in Hcalm.
  unfold Storage.initializeData, try_catch, bind, fs.mkdir, fs.access, randomBytes.
  destruct Hplan as [-> | ->];
    cbn [next_outcome plan files clock random drawn];
    destruct failing; try discriminate;
    rewrite ?Hstored;
    cbn [next_outcome plan files clock random drawn];
    rewrite writeData_eq;
    cbn [plan files with_files with_plan clock random drawn];
    destruct rest as [|[| |r1] [|[| |r2] rest]]; try discriminate;
    cbn [plan files with_files with_plan clock random drawn];
    eexists; (split; [reflexivity|]); (split; [exact Hlen|]);
    cbn [files drawn with_files with_plan]; rewrite lookup_insert_eq;
    split; reflexivity.
Qed.

Lemma initializeData_overwrites_after_fault_witness :
  let w := with_plan [Proceed; Fail] sample_world in
  files w !! sample_data_file = Some (Json sample_document) /\
  exists secret w',
    Storage.initializeData sample_data_dir sample_data_file w = (Ok tt, w') /\
    files w' !! sample_data_file
    = Some (Json (mkDocument secret None Storage.default_preferences [] ∅)).
Proof.
  split; [reflexivity|].
  destruct (initializeData_overwrites_after_fault sample_data_dir sample_data_file
              (with_plan [Proceed; Fail] sample_world) (Json sample_document) Fail [])
    as (secret & w' & Hinit & _ & Hfile & _).
  - reflexivity.
  - reflexivity.
  - right. reflexivity.
  - reflexivity.
  - exists secret, w'. split; assumption.
Defined.

(* ===================================================================== *)
(** ** Cookies: signing, parsing                                           *)
(* ===================================================================== *)

Lemma all_chars_append (p : ascii -> bool) (a b : string) :
  all_chars p (a ++ b) = all_chars p a && all_chars p b.
Proof.
  induction a as [|c a IH]; [reflexivity|].
  change (String c a ++ b) with (String c (a ++ b)).
  cbn [all_chars]. rewrite IH. now rewrite andb_assoc.
Qed.

Lemma all_chars_impl (p q : ascii -> bool) (s : string) :
  (forall c, p c = true -> q c = true) ->
  all_chars p s = true -> all_chars q s = true.
Proof.
  intros Hpq. induction s as [|c s IH]; [reflexivity|].
  cbn [all_chars]. intros H. apply andb_true_iff in H as [Hc Hs].
  now rewrite (Hpq c Hc), (IH Hs).
Qed.

Lemma all_chars_occurrences (p : ascii -> bool) (x : ascii) (s : string) :
  p x = false -> all_chars p s = true -> occurrences x s = 0.
Proof.
  intros Hx. induction s as [|c s IH]; [reflexivity|].
  cbn [all_chars occurrences]. intros H. apply andb_true_iff in H as [Hc Hs].
  destruct (Ascii.eqb_spec c x) as [->|_]; [congruence|].
  now rewrite (IH Hs).
Qed.

Lemma hex_digit_cookie_char (c : ascii) : is_hex_digit c = true -> cookie_char c = true.
Proof.
  unfold is_hex_digit, Crypto.hex_digits. cbn [list_ascii_of_string List.existsb].
  intros H.
  repeat (apply orb_true_iff in H as [H|H];
          [apply Ascii.eqb_eq in H; subst c; reflexivity|]).
  discriminate.
Qed.

(** If [split] gives two pieces, the string is the two pieces around one
    separator. *)
Lemma split_two_inv (sep : ascii) (s a b : string) :
  split sep s = [a; b] ->
  s = a ++ String sep b /\ occurrences sep a = 0 /\ occurrences sep b = 0.
Proof.
  intros Hsplit.
  destruct (first_separator sep s) as [H0 | (a' & b' & -> & Ha')].
  - rewrite (split_without_separator _ _ H0) in Hsplit. discriminate.
  - rewrite split_at_separator in Hsplit by assumption.
    injection Hsplit as <- Hrest.
    pose proof (split_length sep b') as Hlen. rewrite Hrest in Hlen.
    cbn [List.length] in Hlen.
    assert (Hb' : occurrences sep b' = 0) by lia.
    rewrite (split_without_separator _ _ Hb') in Hrest. injection Hrest as <-.
    auto.
Qed.

(** X5. [verifyCookie] accepts exactly what [signCookie] produces from a
    value without a dot: it returns the value [v] for [signedValue] if and
    only if [signedValue] is [signCookie v secret] and [v] contains no [.].
    A signed value altered anywhere is therefore refused or yields another
    value whose own signature it carries. *)
Theorem verifyCookie_accepts_exactly_signed (signedValue secret v : string) :
  Auth.verifyCookie signedValue secret = Some v <->
  signedValue = Auth.signCookie v secret /\ occurrences "." v = 0.
Proof.
  split.
  - unfold Auth.verifyCookie.
    destruct (String.eqb signedValue EmptyString); [discriminate|].
    destruct (split "." signedValue) as [|value [|signature [|x rest]]] eqn:Hsplit;
      try discriminate.
    apply split_two_inv in Hsplit as (-> & Hvalue & _).
    destruct (String.eqb_spec signature
                (Crypto.createHmac_sha256_hex secret value)) as [->|_];
      cbn [negb]; [|discriminate].
    intros E. injection E as <-. split; [reflexivity | assumption].
  - intros [-> Hv]. now apply round_trip_dot_free_value.
Qed.

Lemma trim_end_plain (s : string) :
  all_chars (fun c => negb (is_white_space c)) s = true -> trim_end s = s.
Proof.
  induction s as [|c s IH]; [reflexivity|].
  cbn [all_chars trim_end]. intros H. apply andb_true_iff in H as [Hc Hs].
  rewrite (IH Hs).
  destruct s; [|reflexivity].
  destruct (is_white_space c); [discriminate | reflexivity].
Qed.

(** A header of one pair [name=value] of plain code units parses to that
    pair. *)
Lemma parseCookies_one_pair (name value : string) :
  all_chars cookie_char name = true ->
  all_chars cookie_char value = true ->
  String.eqb name "__proto__" = false ->
  Api.parseCookies (Api.mkRequest (Some (name ++ "=" ++ value)))
  = {[ name := value ]}.
Proof.
  intros Hname Hvalue Hproto.
  assert (Hsemi : occurrences ";" (name ++ "=" ++ value) = 0).
  { rewrite !occurrences_append.
    rewrite (all_chars_occurrences cookie_char ";" name eq_refl Hname).
    rewrite (all_chars_occurrences cookie_char ";" value eq_refl Hvalue).
    reflexivity. }
  assert (Hplain : all_chars (fun c => negb (is_white_space c))
                     (name ++ "=" ++ value) = true).
  { rewrite !all_chars_append. apply andb_true_iff. split; [|apply andb_true_iff; split].
    - apply (all_chars_impl cookie_char); [|assumption].
      intros c Hc. unfold cookie_char in Hc. now destruct (is_white_space c).
    - reflexivity.
    - apply (all_chars_impl cookie_char); [|assumption].
      intros c Hc. unfold cookie_char in Hc. now destruct (is_white_space c). }
  assert (Htrim : trim (name ++ "=" ++ value) = name ++ "=" ++ value).
  { unfold trim.
    assert (Hstart : trim_start (name ++ "=" ++ value) = name ++ "=" ++ value).
    { destruct name as [|c name]; [reflexivity|].
      change (String c name ++ "=" ++ value) with (String c (name ++ "=" ++ value)).
      cbn [trim_start]. cbn [all_chars] in Hname.
      apply andb_true_iff in Hname as [Hc _]. unfold cookie_char in Hc.
      destruct (is_white_space c); [discriminate | reflexivity]. }
    rewrite Hstart. now apply trim_end_plain. }
  unfold Api.parseCookies. cbn [Api.headers_cookie].
  destruct (String.eqb_spec (name ++ "=" ++ value) EmptyString) as [E|_].
  { destruct name; discriminate E. }
  rewrite (split_without_separator _ _ Hsemi). cbn [List.fold_left].
  unfold Api.set_cookie_entry. rewrite Htrim.
  change ("=" ++ value) with (String "=" value).
  rewrite split_at_separator
    by exact (all_chars_occurrences cookie_char "=" name eq_refl Hname).
  rewrite split_without_separator
    by exact (all_chars_occurrences cookie_char "=" value eq_refl Hvalue).
  rewrite Hproto. apply insert_empty.
Qed.

(** The signed form of a hex token goes through a Cookie header unharmed. *)
Lemma session_cookie_parses (token secret : string) :
  all_chars is_hex_digit token = true ->
  Api.parseCookies (request_with_session (Auth.signCookie token secret))
    !! Api.COOKIE_NAME
  = Some (Auth.signCookie token secret).
Proof.
  intros Htoken. unfold request_with_session.
  rewrite parseCookies_one_pair; [apply lookup_singleton_eq | reflexivity | | reflexivity].
  unfold Auth.signCookie. rewrite !all_chars_append.
  apply andb_true_iff. split; [|apply andb_true_iff; split].
  - now apply (all_chars_impl is_hex_digit cookie_char _ hex_digit_cookie_char).
  - reflexivity.
  - apply (all_chars_impl is_hex_digit cookie_char _ hex_digit_cookie_char).
    apply hex_all_hex.
Qed.

Lemma hex_token_dot_free (token : string) :
  all_chars is_hex_digit token = true -> occurrences "." token = 0.
Proof. now apply all_chars_occurrences. Qed.

(** X6. The token of a new session and its way back.  [createSession]
    always returns; its token is 64 lower-case hexadecimal digits made of the
    next 32 random bytes.  Signed under any secret and sent back in a Cookie
    header as [session=<signed>], it is what [parseCookies] finds under
    [session], and [verifyCookie] under the same secret gives the token. *)
Theorem session_token_round_trip (w : World) (secret : string) :
  exists token session w',
    Auth.createSession w = (Ok (token, session), w') /\
    String.length token = 64 /\
    all_chars is_hex_digit token = true /\
    drawn w' = drawn w + 32 /\ files w' = files w /\
    let signed := Auth.signCookie token secret in
    Api.parseCookies (request_with_session signed) !! Api.COOKIE_NAME = Some signed /\
    Auth.verifyCookie signed secret = Some token.
Proof.
  unfold Auth.createSession, Auth.generateSessionToken, bind, randomBytes, Date_now, ret.
  cbn [clock files random drawn].
  set (token := Crypto.hex (List.map (fun i => N.land (random w i) 0xFF)
                                     (List.seq (drawn w) 32))).
  assert (Hhex : all_chars is_hex_digit token = true) by apply hex_all_hex.
  eexists token, _, _. split; [reflexivity|].
  split; [unfold token; now rewrite hex_length, List.length_map, List.length_seq|].
  split; [assumption|].
  cbn [drawn files]. split; [reflexivity|]. split; [reflexivity|].
  cbv zeta. split.
  - now apply session_cookie_parses.
  - apply round_trip_dot_free_value. now apply hex_token_dot_free.
Qed.

Lemma cookie_entries_from_pieces (pieces : list string) :
  forall (acc : gmap string string) (name value : string),
    List.fold_left Api.set_cookie_entry pieces acc !! name = Some value ->
    acc !! name = Some value \/
    exists piece,
      List.In piece pieces /\ trim piece = name ++ String "=" value /\
      occurrences "=" name = 0 /\ occurrences "=" value = 0.
Proof.
  induction pieces as [|piece pieces IH]; intros acc name value Hfound.
  - now left.
  - cbn [List.fold_left] in Hfound.
    destruct (IH _ _ _ Hfound) as [Hacc | (piece' & Hin & Hrest)].
    + unfold Api.set_cookie_entry in Hacc.
      destruct (split "=" (trim piece)) as [|n [|v [|x rest]]] eqn:Hsplit;
        try (now left).
      destruct (String.eqb n "__proto__"); [now left|].
      destruct (decide (n = name)) as [->|Hne].
      * rewrite lookup_insert_eq in Hacc. injection Hacc as ->.
        apply split_two_inv in Hsplit as (Htrim & Hn & Hv).
        right. exists piece. split; [now left | auto].
      * rewrite lookup_insert_ne in Hacc by assumption. now left.
    + right. exists piece'. split; [now right | assumption].
Qed.

(** X7. Where a parsed cookie comes from.  Every entry [name -> value] of
    [parseCookies] is a piece of the Cookie header between semicolons that,
    trimmed, reads [name=value] with no further [=]: a pair whose value
    contains [=] is never an entry, and without a header there is none. *)
Theorem parseCookies_entries_are_pairs (req : Api.Request) (name value : string) :
  Api.parseCookies req !! name = Some value ->
  exists header piece,
    Api.headers_cookie req = Some header /\
    List.In piece (split ";" header) /\
    trim piece = name ++ String "=" value /\
    occurrences "=" name = 0 /\ occurrences "=" value = 0.
Proof.
  unfold Api.parseCookies.
  destruct (Api.headers_cookie req) as [header|];
    [|rewrite lookup_empty; discriminate].
  destruct (String.eqb header EmptyString); [rewrite lookup_empty; discriminate|].
  intros Hfound.
  destruct (cookie_entries_from_pieces _ _ _ _ Hfound) as [Hempty | (piece & Hin & Hrest)].
  - rewrite lookup_empty in Hempty. discriminate.
  - exists header, piece. auto.
Qed.

Lemma parseCookies_entries_are_pairs_witness :
  Api.parseCookies (Api.mkRequest (Some "theme=dark; session=abc.def")) !! "session"
  = Some "abc.def" /\
  exists piece,
    List.In piece (split ";" "theme=dark; session=abc.def") /\
    trim piece = "session=abc.def".
Proof.
  assert (H : Api.parseCookies (Api.mkRequest (Some "theme=dark; session=abc.def"))
                !! "session" = Some "abc.def") by (vm_compute; reflexivity).
  split; [exact H|].
  destruct (parseCookies_entries_are_pairs _ _ _ H)
    as (header & piece & Hheader & Hin & Htrim & _).
  cbn [Api.headers_cookie] in Hheader. injection Hheader as <-.
  exists piece. split; assumption.
Defined.

(* ===================================================================== *)
(** ** What the handlers do to the store                                   *)
(* ===================================================================== *)

(** The gate leaves every file as it is. *)
Lemma isAuthenticated_pure_read_files (DATA_FILE : string) (req : Api.Request)
    (w : World) :
  files (snd (Api.isAuthenticated DATA_FILE req w)) = files w.
Proof.
  rewrite isAuthenticated_eq.
  destruct (Api.parseCookies req !! Api.COOKIE_NAME) as [signedSession|];
    [|reflexivity].
  destruct (String.eqb signedSession EmptyString); [reflexivity|].
  cbv zeta.
  destruct (read_result (List.hd Proceed (plan w)) (files w !! DATA_FILE))
    as [d|e]; [|reflexivity].
  destruct (Auth.verifyCookie signedSession (sessionSecret d)) as [token|];
    [|reflexivity].
  destruct (String.eqb token EmptyString); [reflexivity|].
  now destruct (read_result (List.hd Proceed (List.tl (plan w))) (files w !! DATA_FILE)).
Qed.

(** X8. What [handleLogout] can change.  It always answers, and the
    document file is afterwards either as before or holds the old document
    without the session entry of the one token its cookie verifies to; every
    other session and every other field is kept.  With a cookie that is
    absent or does not verify under the stored secret, nothing is changed:
    a forged cookie logs nobody out. *)
Theorem handleLogout_effect (DATA_FILE : string) (req : Api.Request) (w : World) :
  exists resp w',
    Api.handleLogout DATA_FILE req w = (Ok resp, w') /\
    (files w' !! DATA_FILE = files w !! DATA_FILE \/
     exists signedSession d token,
       Api.parseCookies req !! Api.COOKIE_NAME = Some signedSession /\
       stored_document (files w !! DATA_FILE) = Some d /\
       Auth.verifyCookie signedSession (sessionSecret d) = Some token /\
       files w' !! DATA_FILE = Some (Json (without_session token d))) /\
    ((forall signedSession d,
        Api.parseCookies req !! Api.COOKIE_NAME = Some signedSession ->
        stored_document (files w !! DATA_FILE) = Some d ->
        Auth.verifyCookie signedSession (sessionSecret d) = None) ->
     files w' = files w).
Proof.
  rewrite handleLogout_eq.
  destruct (Api.parseCookies req !! Api.COOKIE_NAME) as [signedSession|];
    [|eexists _, _; split; [reflexivity|]; split; [now left | reflexivity]].
  destruct (String.eqb signedSession EmptyString);
    [eexists _, _; split; [reflexivity|]; split; [now left | reflexivity]|].
  cbv zeta. cbn [plan with_plan].
  destruct (read_result (List.hd Proceed (plan w)) (files w !! DATA_FILE))
    as [d|e] eqn:Hread1;
    [|eexists _, _; split; [reflexivity|]; split; [now left | reflexivity]].
  apply read_result_Ok in Hread1 as [Hd _].
  destruct (Auth.verifyCookie signedSession (sessionSecret d)) as [token|] eqn:Hv;
    [|eexists _, _; split; [reflexivity|]; split; [now left | reflexivity]].
  assert (Hforged :
    (forall signedSession0 d0,
       Some signedSession = Some signedSession0 ->
       stored_document (files w !! DATA_FILE) = Some d0 ->
       Auth.verifyCookie signedSession0 (sessionSecret d0) = None) -> False).
  { intros H. specialize (H signedSession d eq_refl Hd). congruence. }
  destruct (String.eqb token EmptyString);
    [eexists _, _; split; [reflexivity|]; split; [now left | reflexivity]|].
  destruct (read_result (List.hd Proceed (List.tl (plan w))) (files w !! DATA_FILE))
    as [d2|e] eqn:Hread2;
    [|eexists _, _; split; [reflexivity|]; split; [now left | reflexivity]].
  apply read_result_Ok in Hread2 as [Hd2 _].
  rewrite Hd in Hd2. injection Hd2 as <-.
  destruct (read_result (List.hd Proceed (List.tl (List.tl (plan w))))
              (files w !! DATA_FILE)) as [d3|e] eqn:Hread3;
    [|eexists _, _; split; [reflexivity|]; split; [now left | reflexivity]].
  apply read_result_Ok in Hread3 as [Hd3 _].
  rewrite Hd in Hd3. injection Hd3 as <-.
  pose proof (writeData_outcome DATA_FILE
                (with_sessions (delete token (sessions d)) d)
                (with_plan (List.tl (List.tl (List.tl (plan w)))) w)) as Hwrite.
  destruct (Storage.writeData _ _ _) as [[[]|e] w'];
    eexists _, _; (split; [reflexivity|]); cbn [files with_plan] in Hwrite.
  - split; [|intros H; now destruct (Hforged H)].
    right. exists signedSession, d, token. destruct Hwrite as [_ Hfile]. auto.
  - split; [|intros H; now destruct (Hforged H)].
    left. apply Hwrite.
Qed.

(** X9. Behind the gate.  Each handler that starts with the gate
    ([handleResetCredentials], [handleGetLinks], [handleSaveLinks],
    [handleGetPreferences], [handleSavePreferences], [handleExport],
    [handleImport]) answers 401 "Unauthorized" when the gate's verdict is
    falsy, and throws the gate's error when the gate throws; in both cases it
    makes no file-system call of its own, so no file is changed and nothing
    of the document is disclosed. *)
Theorem gated_handlers_refuse
    (DATA_FILE : string) (URL_protocol : string -> option string)
    (req : Api.Request) (w : World) :
  let behind {A} (refusal : A) (handler : M A) :=
    match Api.isAuthenticated DATA_FILE req w with
    | (Ok v, w') => truthy v = false -> handler w = (Ok refusal, w') /\ files w' = files w
    | (Throw e, w') => handler w = (Throw e, w') /\ files w' = files w
    end in
  behind Api.unauthorized (Api.handleResetCredentials DATA_FILE req) /\
  behind (Api.Refusal Api.unauthorized) (Api.handleGetLinks DATA_FILE req) /\
  (forall body, behind Api.unauthorized
                       (Api.handleSaveLinks DATA_FILE URL_protocol req body)) /\
  behind (Api.Refusal Api.unauthorized) (Api.handleGetPreferences DATA_FILE req) /\
  (forall body, behind Api.unauthorized (Api.handleSavePreferences DATA_FILE req body)) /\
  behind (Api.Refusal Api.unauthorized) (Api.handleExport DATA_FILE req) /\
  (forall body, behind Api.unauthorized (Api.handleImport DATA_FILE req body)).
Proof.
  intros behind. subst behind. cbv beta.
  assert (Hgate : forall A (refusal : A) (rest : M A),
    match Api.isAuthenticated DATA_FILE req w with
    | (Ok v, w') =>
        truthy v = false ->
        bind (Api.isAuthenticated DATA_FILE req)
             (fun authenticated =>
                if negb (truthy authenticated) then ret refusal else rest) w
        = (Ok refusal, w') /\ files w' = files w
    | (Throw e, w') =>
        bind (Api.isAuthenticated DATA_FILE req)
             (fun authenticated =>
                if negb (truthy authenticated) then ret refusal else rest) w
        = (Throw e, w') /\ files w' = files w
    end).
  { intros A refusal rest.
    pose proof (isAuthenticated_pure_read_files DATA_FILE req w) as Hfiles.
    unfold bind.
    destruct (Api.isAuthenticated DATA_FILE req w) as [[v|e] w']; cbn [snd] in Hfiles.
    - intros ->. now split.
    - now split. }
  repeat split; intros; apply Hgate.
Qed.

(* ===================================================================== *)
(** ** Login                                                               *)
(* ===================================================================== *)

(** [handleLogin] up to the password check. *)
Lemma handleLogin_rejects_eq (DATA_FILE : string)
    (bcrypt_compare : string -> string -> bool)
    (body : Api.Credentials) (w : World) :
  (forall d, stored_document (files w !! DATA_FILE) = Some d ->
             credentials_match bcrypt_compare body d = false) ->
  Api.handleLogin DATA_FILE bcrypt_compare (Some body) w
  = if Api.falsy (Api.body_username body) || Api.falsy (Api.body_password body)
    then (Ok (Api.sendJSON 400 (Api.Failure "Username and password required")), w)
    else
      (Ok (match read_result (List.hd Proceed (plan w)) (files w !! DATA_FILE) with
           | Ok _ => invalid_credentials
           | Throw _ => Api.sendJSON 500 (Api.Failure "Internal server error")
           end),
       with_plan (List.tl (plan w)) w).
Proof.
  intros Hmismatch.
  unfold Api.handleLogin, try_catch, Api.parseBody.
  unfold bind at 1. cbn [ret].
  destruct (Api.falsy (Api.body_username body) || Api.falsy (Api.body_password body));
    [reflexivity|].
  unfold Storage.getUser. unfold bind at 1. unfold bind at 1.
  rewrite readData_eq.
  destruct (read_result (List.hd Proceed (plan w)) (files w !! DATA_FILE))
    as [d|e] eqn:Hread; [|reflexivity].
  apply read_result_Ok in Hread as [Hd _].
  specialize (Hmismatch d Hd). unfold credentials_match in Hmismatch.
  cbn [ret]. destruct (user d) as [[name hash]|]; [|reflexivity].
  cbn [username passwordHash] in Hmismatch.
  destruct (String.eqb name (Api.text (Api.body_username body))); [|reflexivity].
  cbn [andb negb] in *. unfold Auth.verifyPassword, bind, ret.
  rewrite Hmismatch. reflexivity.
Qed.

(** X10. A login that is refused.  When the body is no JSON, or the stored
    account (if any) does not match the body's user name and password,
    [handleLogin] answers without a cookie and with a status other than 200,
    changes no file and draws no random byte for a token.  With both fields
    given and the document read, the answer is the same 401 "Invalid
    credentials" whether there is no account, the user name is wrong or the
    password is wrong. *)
Theorem handleLogin_refusal (DATA_FILE : string)
    (bcrypt_compare : string -> string -> bool)
    (body : option Api.Credentials) (w : World) :
  (forall b d, body = Some b ->
               stored_document (files w !! DATA_FILE) = Some d ->
               credentials_match bcrypt_compare b d = false) ->
  exists resp w',
    Api.handleLogin DATA_FILE bcrypt_compare body w = (Ok resp, w') /\
    files w' = files w /\ drawn w' = drawn w /\
    Api.set_cookie resp = None /\ Api.statusCode resp <> 200%Z /\
    (forall b d,
       body = Some b ->
       Api.falsy (Api.body_username b) = false ->
       Api.falsy (Api.body_password b) = false ->
       stored_document (files w !! DATA_FILE) = Some d ->
       calm 1 w = true ->
       resp = invalid_credentials).
Proof.
  intros Hmismatch.
  destruct body as [b|].
  2:{ eexists _, _. split; [reflexivity|].
      repeat (split; [first [reflexivity | discriminate]|]). discriminate. }
  rewrite handleLogin_rejects_eq by (intros d Hd; now apply (Hmismatch b d)).
  destruct (Api.falsy (Api.body_username b)) eqn:Hu.
  { eexists _, _. split; [reflexivity|].
    repeat (split; [first [reflexivity | discriminate]|]).
    intros b' d' E. injection E as <-. congruence. }
  destruct (Api.falsy (Api.body_password b)) eqn:Hp.
  { eexists _, _. split; [reflexivity|].
    repeat (split; [first [reflexivity | discriminate]|]).
    intros b' d' E. injection E as <-. congruence. }
  cbn [orb]. eexists _, _. split; [reflexivity|].
  split; [reflexivity|]. split; [reflexivity|].
  split; [now destruct (read_result _ _)|].
  split; [now destruct (read_result _ _)|].
  intros b' d' _ _ _ Hd Hcalm.
  rewrite calm_S in Hcalm. apply andb_true_iff in Hcalm as [Hfirst _].
  rewrite (read_result_stored _ _ d' Hd), Hfirst. reflexivity.
Qed.

Lemma handleLogin_refusal_witness :
  let compare := fun password hash : string => String.eqb password hash in
  let body := Api.mkCredentials (Some "admin") (Some "wrong password") in
  credentials_match compare body sample_document = false /\
  exists w',
    Api.handleLogin sample_data_file compare (Some body) sample_world
    = (Ok invalid_credentials, w') /\
    files w' = files sample_world.
Proof.
  intros compare body. split; [reflexivity|].
  destruct (handleLogin_refusal sample_data_file compare (Some body) sample_world)
    as (resp & w' & Hlogin & Hfiles & _ & _ & _ & Hsame).
  - intros b d Hb Hd. injection Hb as <-.
    cbn in Hd. injection Hd as <-. reflexivity.
  - exists w'. rewrite Hlogin.
    rewrite (Hsame body sample_document eq_refl eq_refl eq_refl eq_refl eq_refl).
    split; [reflexivity | assumption].
Defined.

Lemma hex_token_not_proto (token : string) :
  all_chars is_hex_digit token = true -> String.eqb token "__proto__" = false.
Proof.
  intros H. apply String.eqb_neq. intros ->. discriminate H.
Qed.

Lemma hex_token_not_empty (token : string) :
  String.length token = 64 -> String.eqb token EmptyString = false.
Proof. intros H. apply String.eqb_neq. intros ->. discriminate H. Qed.

(** The gate on the signed cookie of a stored session, with both reads
    succeeding: the verdict is whether the clock reads less than the
    session's [expiresAt]. *)
Lemma stored_session_verdict (DATA_FILE : string) (w : World) (d : Document)
    (token : string) (s : Session) :
  stored_document (files w !! DATA_FILE) = Some d ->
  calm 2 w = true ->
  all_chars is_hex_digit token = true ->
  String.length token = 64 ->
  sessions d !! token = Some s ->
  expiresAt s <> 0%Z ->
  Api.isAuthenticated DATA_FILE
    (request_with_session (Auth.signCookie token (sessionSecret d))) w
  = (Ok (JsBool (clock w <? expiresAt s)%Z),
     with_plan (List.tl (List.tl (plan w))) w).
Proof.
  intros Hd Hcalm Hhex Hlen Hs Hexp.
  rewrite isAuthenticated_eq, session_cookie_parses by assumption.
  assert (Hsigned : String.eqb (Auth.signCookie token (sessionSecret d)) EmptyString
                    = false).
  { apply String.eqb_neq. intros E.
    apply (f_equal (occurrences ".")) in E.
    rewrite signCookie_occurrences in E. discriminate E. }
  rewrite Hsigned. cbv zeta.
  rewrite !(read_result_stored _ _ d Hd).
  rewrite 2 calm_S in Hcalm. cbn [plan with_plan] in Hcalm.
  apply andb_true_iff in Hcalm as [-> Hcalm].
  apply andb_true_iff in Hcalm as [-> _].
  rewrite round_trip_dot_free_value by now apply hex_token_dot_free.
  rewrite (hex_token_not_empty _ Hlen).
  unfold get_property. rewrite Hs. cbn [session_verdict].
  destruct (Z.eqb_spec (expiresAt s) 0) as [E|_]; [contradiction|].
  reflexivity.
Qed.

(** [handleLogin] on matching credentials, no faults planned. *)
Lemma handleLogin_accepts (DATA_FILE : string)
    (bcrypt_compare : string -> string -> bool)
    (body : Api.Credentials) (w : World) (d : Document) :
  plan w = [] ->
  (0 <= clock w)%Z ->
  stored_document (files w !! DATA_FILE) = Some d ->
  Api.falsy (Api.body_username body) = false ->
  Api.falsy (Api.body_password body) = false ->
  credentials_match bcrypt_compare body d = true ->
  exists token w',
    let signed := Auth.signCookie token (sessionSecret d) in
    let session := mkSession (clock w) (clock w + 604800000) in
    Api.handleLogin DATA_FILE bcrypt_compare (Some body) w
    = (Ok (Api.mkResponse 200 (Some (Api.login_cookie signed)) Api.Success), w') /\
    plan w' = [] /\ clock w' = clock w /\
    String.length token = 64 /\
    all_chars is_hex_digit token = true /\
    files w' !! DATA_FILE
    = Some (Json (with_sessions (<[token := session]> (sessions d)) d)) /\
    forall w2,
      files w2 !! DATA_FILE = files w' !! DATA_FILE ->
      calm 2 w2 = true ->
      fst (Api.isAuthenticated DATA_FILE (request_with_session signed) w2)
      = Ok (JsBool (clock w2 <? clock w + 604800000)%Z).
Proof.
  intros Hplan Hepoch Hd Hu Hp Hmatch.
  destruct w as [fs p t r n]. cbn [plan files clock] in *. subst p.
  set (token := Crypto.hex (List.map (fun i => N.land (r i) 0xFF) (List.seq n 32))).
  assert (Hhex : all_chars is_hex_digit token = true) by apply hex_all_hex.
  assert (Hlen : String.length token = 64)
    by (unfold token; now rewrite hex_length, List.length_map, List.length_seq).
  set (d' := with_sessions (<[token := mkSession t (t + 604800000)]> (sessions d)) d).
  assert (Hread : forall fs0 n0,
            Storage.readData DATA_FILE (mkWorld fs0 [] t r n0)
            = (read_result Proceed (fs0 !! DATA_FILE), mkWorld fs0 [] t r n0)).
  { intros fs0 n0. now rewrite readData_eq. }
  unfold credentials_match in Hmatch.
  destruct (user d) as [[name hash]|] eqn:Huser; [|discriminate].
  cbn [username passwordHash] in Hmatch.
  apply andb_true_iff in Hmatch as [Hname Hpassword].
  exists token.
  unfold Api.handleLogin, try_catch, Api.parseBody.
  unfold bind at 1. cbn [ret]. rewrite Hu, Hp. cbn [orb].
  unfold Storage.getUser. unfold bind at 1. unfold bind at 1.
  rewrite Hread, (read_result_calm _ d Hd). cbn [ret]. rewrite Huser, Hname.
  cbn [negb]. unfold Auth.verifyPassword. unfold bind at 1. cbn [ret].
  rewrite Hpassword. cbn [negb].
  unfold Auth.createSession, Auth.generateSessionToken, randomBytes, Date_now.
  unfold bind at 1. unfold bind at 1. unfold bind at 1. unfold bind at 1.
  cbn [ret clock files plan random drawn fst snd]. fold token.
  unfold Storage.getSessions. unfold bind at 1. unfold bind at 1.
  rewrite Hread, (read_result_calm _ d Hd). cbn [ret].
  unfold Api.set_session. rewrite (hex_token_not_proto _ Hhex).
  unfold bind at 1.
  change (Storage.saveSessions DATA_FILE ?t0) with (update DATA_FILE (with_sessions t0)).
  destruct (update_calm DATA_FILE
              (with_sessions (<[token := mkSession t (t + Auth.SESSION_DURATION)]>
                                (sessions d)))
              (mkWorld fs [] t r (n + 32)) d Hd eq_refl)
    as (w' & Hup & Hfile & Hplan' & Hclock & Hrandom & Hdrawn).
  rewrite Hup.
  unfold Storage.getSessionSecret, bind, ret.
  rewrite readData_eq, Hplan', Hfile. cbn [List.skipn List.hd plan read_result].
  eexists. cbv zeta. split; [reflexivity|].
  cbn [plan clock with_plan]. split; [reflexivity|]. split; [exact Hclock|].
  split; [assumption|]. split; [assumption|].
  cbn [files with_plan]. split; [exact Hfile|].
  intros w2 Hsame Hcalm. rewrite Hfile in Hsame.
  change (sessionSecret d) with
    (sessionSecret (with_sessions
       (<[token := mkSession t (t + Auth.SESSION_DURATION)]> (sessions d)) d)).
  rewrite (stored_session_verdict DATA_FILE w2 _ token
             (mkSession t (t + Auth.SESSION_DURATION)));
    try assumption.
  - reflexivity.
  - now rewrite Hsame.
  - cbn [sessions with_sessions]. apply lookup_insert_eq.
  - cbn [expiresAt]. rewrite SESSION_DURATION_ms. lia.
Qed.

(** X11. A login that succeeds.  With no faults planned, the clock at or
    after the epoch, an account stored whose user name is the body's and
    whose hash bcrypt accepts for the body's password, [handleLogin] answers
    200 and sets the cookie [session=<signed token>] with Max-Age 604800.
    The token is 64 fresh hexadecimal digits; the stored document is the old
    one with one session added under that token, created now and expiring
    seven days later.  A request that sends the cookie back is authenticated
    exactly while the clock reads less than that expiry. *)
Theorem handleLogin_success (DATA_FILE : string)
    (bcrypt_compare : string -> string -> bool)
    (body : Api.Credentials) (w : World) (d : Document) :
  plan w = [] ->
  (0 <= clock w)%Z ->
  stored_document (files w !! DATA_FILE) = Some d ->
  Api.falsy (Api.body_username body) = false ->
  Api.falsy (Api.body_password body) = false ->
  credentials_match bcrypt_compare body d = true ->
  exists token w',
    let signed := Auth.signCookie token (sessionSecret d) in
    let session := mkSession (clock w) (clock w + 604800000) in
    Api.handleLogin DATA_FILE bcrypt_compare (Some body) w
    = (Ok (Api.mkResponse 200 (Some (Api.login_cookie signed)) Api.Success), w') /\
    String.length token = 64 /\
    all_chars is_hex_digit token = true /\
    files w' !! DATA_FILE
    = Some (Json (with_sessions (<[token := session]> (sessions d)) d)) /\
    forall w2,
      files w2 !! DATA_FILE = files w' !! DATA_FILE ->
      calm 2 w2 = true ->
      fst (Api.isAuthenticated DATA_FILE (request_with_session signed) w2)
      = Ok (JsBool (clock w2 <? clock w + 604800000)%Z).
Proof.
  intros Hplan Hepoch Hd Hu Hp Hmatch.
  destruct (handleLogin_accepts DATA_FILE bcrypt_compare body w d
              Hplan Hepoch Hd Hu Hp Hmatch)
    as (token & w' & Hlogin & _ & _ & Hlen & Hhex & Hfile & Hafter).
  exists token, w'. cbv zeta. auto.
Qed.

(* ===================================================================== *)
(** ** Setup                                                               *)
(* ===================================================================== *)


Lemma handleLogin_success_witness :
  let compare := fun password hash : string => String.eqb password "longenough1" in
  let body := Api.mkCredentials (Some "admin") (Some "longenough1") in
  plan sample_world = [] /\ (0 <= clock sample_world)%Z /\
  credentials_match compare body sample_document = true /\
  exists token w',
    Api.handleLogin sample_data_file compare (Some body) sample_world
    = (Ok (Api.mkResponse 200
             (Some (Api.login_cookie (Auth.signCookie token "secretA")))
             Api.Success), w') /\
    String.length token = 64.
Proof.
  intros compare body.
  assert (Hepoch : (0 <= clock sample_world)%Z)
    by (unfold sample_world, sample_time; cbn [clock]; lia).
  split; [reflexivity|]. split; [exact Hepoch|]. split; [reflexivity|].
  destruct (handleLogin_success sample_data_file compare body sample_world
              sample_document eq_refl Hepoch eq_refl eq_refl eq_refl eq_refl)
    as (token & w' & Hlogin & Hlen & _).
  exists token, w'. split; assumption.
Defined.

(** [handleSetup] on a well-formed body and a document without an account,
    no faults planned. *)
Lemma handleSetup_accepts (DATA_FILE : string)
    (bcrypt_hash : string -> Z -> list N -> string)
    (name password : string) (w : World) (d : Document) :
  plan w = [] ->
  stored_document (files w !! DATA_FILE) = Some d ->
  user d = None ->
  (3 <= String.length name <= 50)%nat ->
  (8 <= String.length password)%nat ->
  let salt := List.map (fun i => N.land (random w i) 0xFF) (List.seq (drawn w) 16) in
  let hash := bcrypt_hash password 10%Z salt in
  exists w',
    Api.handleSetup DATA_FILE bcrypt_hash
      (Some (Api.mkCredentials (Some name) (Some password))) w
    = (Ok (Api.sendJSON 200 Api.Success), w') /\
    files w' !! DATA_FILE = Some (Json (with_user (Some (mkUser name hash)) d)) /\
    plan w' = [] /\ clock w' = clock w /\ drawn w' = drawn w + 16.
Proof.
  intros Hplan Hd Huser Hname Hpassword salt hash.
  destruct w as [fs p t r n]. cbn [plan files clock random drawn] in *. subst p.
  unfold Api.handleSetup, try_catch, Api.parseBody.
  unfold bind at 1. cbn [ret Api.body_username Api.body_password Api.falsy Api.text].
  assert (Hn0 : String.eqb name EmptyString = false).
  { apply String.eqb_neq. intros ->. cbn in Hname. lia. }
  assert (Hp0 : String.eqb password EmptyString = false).
  { apply String.eqb_neq. intros ->. cbn in Hpassword. lia. }
  rewrite Hn0, Hp0.
  destruct (Nat.ltb_spec (String.length name) 3); [lia|].
  destruct (Nat.ltb_spec 50 (String.length name)); [lia|].
  destruct (Nat.ltb_spec (String.length password) 8); [lia|].
  cbn [orb].
  unfold Storage.getUser. unfold bind at 1. unfold bind at 1.
  rewrite readData_eq. cbn [plan files List.hd List.tl with_plan clock random drawn].
  rewrite (read_result_calm _ d Hd). cbn [ret]. rewrite Huser.
  unfold Auth.hashPassword, randomBytes.
  unfold bind at 1. unfold bind at 1.
  cbn [ret files plan clock random drawn with_plan List.tl].
  unfold bind at 1.
  change (Storage.setUser DATA_FILE (Some (?n0, ?h0)))
    with (update DATA_FILE (with_user (Some (mkUser n0 h0)))).
  destruct (update_calm DATA_FILE
              (with_user (Some (mkUser name
                 (bcrypt_hash password Auth.BCRYPT_ROUNDS
                    (List.map (fun i => N.land (r i) 0xFF) (List.seq n 16))))))
              (mkWorld fs [] t r (n + 16)) d Hd eq_refl)
    as (w' & Hup & Hfile & Hplan' & Hclock & _ & Hdrawn).
  rewrite Hup. exists w'. split; [reflexivity|].
  split; [exact Hfile|]. auto.
Qed.

(** X13. Setup, then login.  With no faults planned, the clock at or after
    the epoch, a readable document without an account and a well-formed body,
    [handleSetup] answers 200 and stores the account with the bcrypt hash of
    the password under a salt of 16 fresh random bytes, every other field
    kept; the setup check then answers that no setup is needed.  If bcrypt
    accepts the password for that hash, [handleLogin] with the same body then
    answers 200 with a session cookie, and a request that sends the cookie
    back is authenticated. *)
Theorem handleSetup_then_login (DATA_FILE : string)
    (bcrypt_hash : string -> Z -> list N -> string)
    (bcrypt_compare : string -> string -> bool)
    (name password : string) (w : World) (d : Document) :
  plan w = [] ->
  (0 <= clock w)%Z ->
  stored_document (files w !! DATA_FILE) = Some d ->
  user d = None ->
  (3 <= String.length name <= 50)%nat ->
  (8 <= String.length password)%nat ->
  let body := Some (Api.mkCredentials (Some name) (Some password)) in
  let salt := List.map (fun i => N.land (random w i) 0xFF) (List.seq (drawn w) 16) in
  let hash := bcrypt_hash password 10%Z salt in
  bcrypt_compare password hash = true ->
  exists w1 token w2,
    Api.handleSetup DATA_FILE bcrypt_hash body w = (Ok (Api.sendJSON 200 Api.Success), w1) /\
    files w1 !! DATA_FILE = Some (Json (with_user (Some (mkUser name hash)) d)) /\
    fst (Api.handleSetupCheck DATA_FILE w1) = Ok (Api.Data 200 false) /\
    Api.handleLogin DATA_FILE bcrypt_compare body w1
    = (Ok (Api.mkResponse 200
             (Some (Api.login_cookie (Auth.signCookie token (sessionSecret d))))
             Api.Success), w2) /\
    fst (Api.isAuthenticated DATA_FILE
           (request_with_session (Auth.signCookie token (sessionSecret d))) w2)
    = Ok (JsBool true).
Proof.
  intros Hplan Hepoch Hd Huser Hname Hpassword body salt hash Hbcrypt.
  destruct (handleSetup_accepts DATA_FILE bcrypt_hash name password w d
              Hplan Hd Huser Hname Hpassword)
    as (w1 & Hsetup & Hfile1 & Hplan1 & Hclock1 & _).
  fold salt in Hfile1. fold hash in Hfile1.
  assert (Hd1 : stored_document (files w1 !! DATA_FILE)
                = Some (with_user (Some (mkUser name hash)) d))
    by now rewrite Hfile1.
  assert (Hn0 : String.eqb name EmptyString = false).
  { apply String.eqb_neq. intros ->. cbn in Hname. lia. }
  assert (Hp0 : String.eqb password EmptyString = false).
  { apply String.eqb_neq. intros ->. cbn in Hpassword. lia. }
  destruct (handleLogin_accepts DATA_FILE bcrypt_compare
              (Api.mkCredentials (Some name) (Some password)) w1
              (with_user (Some (mkUser name hash)) d))
    as (token & w2 & Hlogin & Hplan2 & Hclock2 & _ & _ & Hfile2 & Hafter);
    try assumption.
  { now rewrite Hclock1. }
  { unfold credentials_match. cbn. now rewrite String.eqb_refl, Hbcrypt. }
  exists w1, token, w2.
  split; [exact Hsetup|]. split; [exact Hfile1|].
  split.
  { rewrite handleSetupCheck_eq, Hplan1, Hfile1. cbn [fst List.hd read_result].
    cbn [user with_user]. rewrite bool_decide_eq_true_2 by eauto. reflexivity. }
  split; [exact Hlogin|].
  cbv zeta in Hafter. cbn [sessionSecret with_user] in Hafter.
  rewrite (Hafter w2 eq_refl).
  - do 2 f_equal. apply Z.ltb_lt. rewrite Hclock2, Hclock1. lia.
  - unfold calm. now rewrite Hplan2.
Qed.

Lemma handleSetup_then_login_witness :
  let bcrypt_hash := fun (password : string) (rounds : Z) (salt : list N) =>
                       Crypto.hex salt ++ password in
  let bcrypt_compare := fun password hash : string =>
                          String.eqb hash ("00000000000000000000000000000000" ++ password) in
  let fresh := mkDocument "secretA" None Storage.default_preferences [] ∅ in
  let w := mkWorld {[ sample_data_file := Json fresh ]} [] sample_time (fun _ => 0%N) 0 in
  plan w = [] /\ (0 <= clock w)%Z /\ user fresh = None /\
  exists w1 token w2,
    Api.handleSetup sample_data_file bcrypt_hash
      (Some (Api.mkCredentials (Some "admin") (Some "longenough1"))) w
    = (Ok (Api.sendJSON 200 Api.Success), w1) /\
    Api.handleLogin sample_data_file bcrypt_compare
      (Some (Api.mkCredentials (Some "admin") (Some "longenough1"))) w1
    = (Ok (Api.mkResponse 200
             (Some (Api.login_cookie (Auth.signCookie token "secretA")))
             Api.Success), w2) /\
    fst (Api.isAuthenticated sample_data_file
           (request_with_session (Auth.signCookie token "secretA")) w2)
    = Ok (JsBool true).
Proof.
  intros bcrypt_hash bcrypt_compare fresh w.
  assert (Hepoch : (0 <= clock w)%Z) by (unfold w, sample_time; cbn [clock]; lia).
  split; [reflexivity|]. split; [exact Hepoch|]. split; [reflexivity|].
  destruct (handleSetup_then_login sample_data_file bcrypt_hash bcrypt_compare
              "admin" "longenough1" w fresh)
    as (w1 & token & w2 & Hsetup & _ & _ & Hlogin & Hauth).
  - reflexivity.
  - exact Hepoch.
  - reflexivity.
  - reflexivity.
  - cbn. lia.
  - cbn. lia.
  - vm_compute. reflexivity.
  - exists w1, token, w2. auto.
Defined.

(* ===================================================================== *)
(** ** Credential reset                                                    *)
(* ===================================================================== *)

(** A truthy verdict: what was read, and the world it leaves. *)
Lemma authenticated_run (DATA_FILE : string) (req : Api.Request) (w w1 : World)
    (v : js_value) :
  Api.isAuthenticated DATA_FILE req w = (Ok v, w1) -> truthy v = true ->
  w1 = with_plan (List.tl (List.tl (plan w))) w /\
  calm 2 w = true /\
  exists signedSession d token s,
    Api.parseCookies req !! Api.COOKIE_NAME = Some signedSession /\
    String.eqb signedSession EmptyString = false /\
    stored_document (files w !! DATA_FILE) = Some d /\
    Auth.verifyCookie signedSession (sessionSecret d) = Some token /\
    String.eqb token EmptyString = false /\
    sessions d !! token = Some s /\
    expiresAt s <> 0%Z /\
    (clock w < expiresAt s)%Z.
Proof.
  rewrite isAuthenticated_eq, 2 calm_S. cbn [plan with_plan].
  destruct (Api.parseCookies req !! Api.COOKIE_NAME) as [signedSession|].
  2:{ intros E; inversion E; subst; discriminate. }
  destruct (String.eqb signedSession EmptyString) eqn:Hc.
  { intros E; inversion E; subst; discriminate. }
  cbv zeta.
  destruct (read_result (List.hd Proceed (plan w)) (files w !! DATA_FILE))
    as [d|e] eqn:Hread1; [|discriminate].
  apply read_result_Ok in Hread1 as [Hstored ->].
  destruct (Auth.verifyCookie signedSession (sessionSecret d)) as [token|] eqn:Hv.
  2:{ intros E; inversion E; subst; discriminate. }
  destruct (String.eqb token EmptyString) eqn:Ht.
  { intros E; inversion E; subst; discriminate. }
  destruct (read_result (List.hd Proceed (List.tl (plan w))) (files w !! DATA_FILE))
    as [d'|e] eqn:Hread2; [|discriminate].
  apply read_result_Ok in Hread2 as [Hstored' ->].
  rewrite Hstored in Hstored'. inversion Hstored'. subst d'.
  intros E Htruthy. inversion E. subst v w1. clear E.
  split; [reflexivity|]. split; [reflexivity|].
  unfold get_property in Htruthy.
  destruct (sessions d !! token) as [s|] eqn:Hs.
  - cbn [session_verdict truthy] in Htruthy.
    apply andb_true_iff in Htruthy as [Hexp Hlt]. apply Z.ltb_lt in Hlt.
    exists signedSession, d, token, s.
    split; [reflexivity|].
    repeat (split; [assumption|]). split; [|assumption].
    intros E. rewrite E in Hexp. discriminate.
  - destruct (bool_decide _); discriminate.
Qed.

(** The gate says yes again on any document with the same secret and the
    same entry for the token, while the session lasts. *)
Lemma authenticated_again (DATA_FILE : string) (req : Api.Request) (w : World)
    (signedSession token : string) (d : Document) (s : Session) :
  Api.parseCookies req !! Api.COOKIE_NAME = Some signedSession ->
  String.eqb signedSession EmptyString = false ->
  stored_document (files w !! DATA_FILE) = Some d ->
  Auth.verifyCookie signedSession (sessionSecret d) = Some token ->
  String.eqb token EmptyString = false ->
  sessions d !! token = Some s ->
  expiresAt s <> 0%Z ->
  calm 2 w = true ->
  fst (Api.isAuthenticated DATA_FILE req w) = Ok (JsBool (clock w <? expiresAt s)%Z).
Proof.
  intros Hcookie Hc Hd Hv Ht Hs Hexp Hcalm.
  rewrite isAuthenticated_eq, Hcookie, Hc. cbv zeta.
  rewrite !(read_result_stored _ _ d Hd).
  rewrite 2 calm_S in Hcalm. cbn [plan with_plan] in Hcalm.
  apply andb_true_iff in Hcalm as [-> Hcalm].
  apply andb_true_iff in Hcalm as [-> _].
  rewrite Hv, Ht. unfold get_property. rewrite Hs. cbn [fst session_verdict].
  destruct (Z.eqb_spec (expiresAt s) 0); [contradiction | reflexivity].
Qed.

(** [handleResetCredentials] after a truthy verdict: two updates in a row. *)
Lemma handleResetCredentials_eq (DATA_FILE : string) (req : Api.Request)
    (w w1 : World) (v : js_value) :
  Api.isAuthenticated DATA_FILE req w = (Ok v, w1) -> truthy v = true ->
  Api.handleResetCredentials DATA_FILE req w
  = match update DATA_FILE (with_user None) w1 with
    | (Ok _, w2) =>
        match update DATA_FILE (with_sessions ∅) w2 with
        | (Ok _, w3) => (Ok logged_out, w3)
        | (Throw _, w3) => (Ok internal_server_error, w3)
        end
    | (Throw _, w2) => (Ok internal_server_error, w2)
    end.
Proof.
  intros Hauth Htruthy.
  unfold Api.handleResetCredentials. unfold bind at 1.
  rewrite Hauth, Htruthy. cbn [negb]. unfold try_catch.
  unfold bind at 1.
  change (Storage.setUser DATA_FILE None) with (update DATA_FILE (with_user None)).
  destruct (update DATA_FILE (with_user None) w1) as [[[]|e] w2]; [|reflexivity].
  unfold bind.
  change (Storage.saveSessions DATA_FILE ∅) with (update DATA_FILE (with_sessions ∅)).
  now destruct (update DATA_FILE (with_sessions ∅) w2) as [[[]|e] w3].
Qed.

(** X14. A credential reset that goes through.  For an authenticated
    request with no fault in the eight file-system calls,
    [handleResetCredentials] answers 200 with the cookie cleared; the stored
    document is the old one without its account and with an empty session
    table, links, preferences and secret kept.  From then on the setup check
    answers that setup is needed and no request is authenticated, whatever
    cookie it carries. *)
Theorem handleResetCredentials_clears (DATA_FILE : string) (req : Api.Request)
    (w w1 : World) (v : js_value) :
  Api.isAuthenticated DATA_FILE req w = (Ok v, w1) ->
  truthy v = true ->
  calm 8 w = true ->
  exists d w',
    stored_document (files w !! DATA_FILE) = Some d /\
    Api.handleResetCredentials DATA_FILE req w = (Ok logged_out, w') /\
    files w' !! DATA_FILE = Some (Json (with_sessions ∅ (with_user None d))) /\
    (forall w2,
       files w2 !! DATA_FILE = files w' !! DATA_FILE ->
       calm 1 w2 = true ->
       fst (Api.handleSetupCheck DATA_FILE w2) = Ok (Api.Data 200 true)) /\
    (forall req' w2,
       files w2 !! DATA_FILE = files w' !! DATA_FILE ->
       match Api.isAuthenticated DATA_FILE req' w2 with
       | (Ok v2, _) => truthy v2 = false
       | (Throw _, _) => calm 2 w2 = false
       end).
Proof.
  intros Hauth Htruthy Hcalm.
  rewrite (handleResetCredentials_eq _ _ _ _ _ Hauth Htruthy).
  destruct (authenticated_run _ _ _ _ _ Hauth Htruthy)
    as (-> & _ & c & d & token & s & _ & _ & Hd & _).
  assert (Hplans : calm 3 (with_plan (List.tl (List.tl (plan w))) w) = true /\
                   calm 3 (with_plan (List.skipn 3 (List.tl (List.tl (plan w)))) w) = true).
  { unfold calm in *. cbn [plan with_plan].
    destruct (plan w) as [|o1 [|o2 [|o3 [|o4 [|o5 [|o6 [|o7 [|o8 p]]]]]]]];
      cbn in *;
      repeat match goal with
             | H : _ && _ = true |- _ => apply andb_true_iff in H as [? H]
             end;
      repeat match goal with H : ?x = true |- _ => rewrite H end; auto. }
  destruct Hplans as [Hcalm1 Hcalm2].
  destruct (update_calm DATA_FILE (with_user None)
              (with_plan (List.tl (List.tl (plan w))) w) d Hd Hcalm1)
    as (w2 & Hup1 & Hfile1 & Hplan1 & _).
  rewrite Hup1.
  assert (Hd1 : stored_document (files w2 !! DATA_FILE) = Some (with_user None d))
    by now rewrite Hfile1.
  assert (Hcalm2' : calm 3 w2 = true).
  { unfold calm in *. cbn [plan with_plan] in *. now rewrite Hplan1. }
  destruct (update_calm DATA_FILE (with_sessions ∅) w2 _ Hd1 Hcalm2')
    as (w3 & Hup2 & Hfile2 & _).
  rewrite Hup2. exists d, w3.
  split; [exact Hd|]. split; [reflexivity|]. split; [exact Hfile2|].
  split.
  - intros w4 Hsame Hcalm4. rewrite Hfile2 in Hsame.
    rewrite handleSetupCheck_eq. cbn [fst].
    rewrite calm_S in Hcalm4. apply andb_true_iff in Hcalm4 as [Hfirst _].
    rewrite (read_result_stored _ _ (with_sessions ∅ (with_user None d)))
      by now rewrite Hsame.
    rewrite Hfirst. reflexivity.
  - intros req' w4 Hsame. rewrite Hfile2 in Hsame.
    apply (empty_table_authenticates_nobody DATA_FILE req' w4
             (with_sessions ∅ (with_user None d)));
      [now rewrite Hsame | reflexivity].
Qed.

Lemma handleResetCredentials_clears_witness :
  Api.isAuthenticated sample_data_file sample_request sample_world
  = (Ok (JsBool true), sample_world) /\
  calm 8 sample_world = true /\
  exists w',
    Api.handleResetCredentials sample_data_file sample_request sample_world
    = (Ok logged_out, w') /\
    files w' !! sample_data_file
    = Some (Json (with_sessions ∅ (with_user None sample_document))).
Proof.
  assert (Hauth : Api.isAuthenticated sample_data_file sample_request sample_world
                  = (Ok (JsBool true), sample_world))
    by (vm_compute; reflexivity).
  split; [exact Hauth|]. split; [reflexivity|].
  destruct (handleResetCredentials_clears sample_data_file sample_request
              sample_world sample_world (JsBool true) Hauth eq_refl eq_refl)
    as (d & w' & Hd & Hreset & Hfile & _).
  cbn in Hd. injection Hd as <-.
  exists w'. split; assumption.
Defined.

(** X15. A credential reset cut in two.  The account and the sessions are
    cleared by two separate writes.  For an authenticated request, when the
    gate and [setUser(null, null)] run without fault and a fault then hits
    [saveSessions({})], [handleResetCredentials] answers 500, the stored
    document has lost its account and kept its session table, and the same
    cookie is still authenticated at that clock reading. *)
Theorem handleResetCredentials_half_done (DATA_FILE : string) (req : Api.Request)
    (w w1 : World) (v : js_value) :
  Api.isAuthenticated DATA_FILE req w = (Ok v, w1) ->
  truthy v = true ->
  calm 5 w = true ->
  calm 3 (with_plan (List.skipn 5 (plan w)) w) = false ->
  exists d w',
    stored_document (files w !! DATA_FILE) = Some d /\
    Api.handleResetCredentials DATA_FILE req w = (Ok internal_server_error, w') /\
    files w' !! DATA_FILE = Some (Json (with_user None d)) /\
    forall w2,
      files w2 !! DATA_FILE = files w' !! DATA_FILE ->
      clock w2 = clock w ->
      calm 2 w2 = true ->
      fst (Api.isAuthenticated DATA_FILE req w2) = Ok (JsBool true).
Proof.
  intros Hauth Htruthy Hcalm Hfault.
  rewrite (handleResetCredentials_eq _ _ _ _ _ Hauth Htruthy).
  destruct (authenticated_run _ _ _ _ _ Hauth Htruthy)
    as (-> & _ & c & d & token & s & Hcookie & Hc & Hd & Hv & Ht & Hs & Hexp & Hlt).
  assert (Hcalm1 : calm 3 (with_plan (List.tl (List.tl (plan w))) w) = true).
  { unfold calm in *. cbn [plan with_plan].
    destruct (plan w) as [|o1 [|o2 [|o3 [|o4 [|o5 p]]]]]; cbn in *;
      repeat match goal with
             | H : _ && _ = true |- _ => apply andb_true_iff in H as [? H]
             end;
      repeat match goal with H : ?x = true |- _ => rewrite H end; auto. }
  destruct (update_calm DATA_FILE (with_user None)
              (with_plan (List.tl (List.tl (plan w))) w) d Hd Hcalm1)
    as (w2 & Hup1 & Hfile1 & Hplan1 & _).
  rewrite Hup1.
  assert (Hfault2 : calm 3 w2 = false).
  { unfold calm in *. cbn [plan with_plan] in *. rewrite Hplan1.
    destruct (plan w) as [|o1 [|o2 p]]; exact Hfault. }
  pose proof (update_outcome DATA_FILE (with_sessions ∅) w2) as Hsecond.
  destruct (update DATA_FILE (with_sessions ∅) w2) as [[[]|e] w3].
  { destruct Hsecond as [Hok _]. congruence. }
  destruct Hsecond as [_ Hfile3]. rewrite Hfile1 in Hfile3.
  exists d, w3. split; [exact Hd|]. split; [reflexivity|]. split; [exact Hfile3|].
  intros w4 Hsame Hclock Hcalm4. rewrite Hfile3 in Hsame.
  rewrite (authenticated_again DATA_FILE req w4 c token (with_user None d) s);
    try assumption.
  - do 2 f_equal. apply Z.ltb_lt. now rewrite Hclock.
  - now rewrite Hsame.
Qed.

Lemma handleResetCredentials_half_done_witness :
  let w := with_plan [Proceed; Proceed; Proceed; Proceed; Proceed; Fail] sample_world in
  Api.isAuthenticated sample_data_file sample_request w
  = (Ok (JsBool true),
     with_plan [Proceed; Proceed; Proceed; Fail] sample_world) /\
  calm 5 w = true /\
  calm 3 (with_plan (List.skipn 5 (plan w)) w) = false /\
  exists w',
    Api.handleResetCredentials sample_data_file sample_request w
    = (Ok internal_server_error, w') /\
    files w' !! sample_data_file = Some (Json (with_user None sample_document)).
Proof.
  intros w.
  assert (Hauth : Api.isAuthenticated sample_data_file sample_request w
                  = (Ok (JsBool true),
                     with_plan [Proceed; Proceed; Proceed; Fail] sample_world))
    by (vm_compute; reflexivity).
  split; [exact Hauth|]. split; [reflexivity|]. split; [reflexivity|].
  destruct (handleResetCredentials_half_done sample_data_file sample_request
              w _ (JsBool true) Hauth eq_refl eq_refl eq_refl)
    as (d & w' & Hd & Hreset & Hfile & _).
  cbn in Hd. injection Hd as <-.
  exists w'. split; assumption.
Defined.

(* ===================================================================== *)
(** ** Links and preferences                                               *)
(* ===================================================================== *)









(** X19. An import is not all-or-nothing, and its links go unchecked.  For
    an authenticated request with no fault in the gate and in [saveLinks],
    a body with an array of links and a preferences object that the import
    check refuses makes [handleImport] answer 400 "Invalid preferences" after
    the links have been stored: the stored document is the old one with the
    body's links, whatever they are, in place of its own. *)
Theorem handleImport_stores_links_first (DATA_FILE : string) (req : Api.Request)
    (links : list Link) (p : Preferences) (w w1 : World) (v : js_value) :
  Api.isAuthenticated DATA_FILE req w = (Ok v, w1) ->
  truthy v = true ->
  calm 5 w = true ->
  Api.import_preferences_invalid p = true ->
  exists d w',
    stored_document (files w !! DATA_FILE) = Some d /\
    Api.handleImport DATA_FILE req
      (Some (Api.mkImportBody (Api.LinksArray links) (Some p))) w
    = (Ok (Api.sendJSON 400 (Api.Failure "Invalid preferences")), w') /\
    files w' !! DATA_FILE = Some (Json (with_links links d)).
Proof.
  intros Hauth Htruthy Hcalm Hinvalid.
  destruct (authenticated_run _ _ _ _ _ Hauth Htruthy)
    as (-> & _ & c & d & token & s & _ & _ & Hd & _).
  assert (Hcalm1 : calm 3 (with_plan (List.tl (List.tl (plan w))) w) = true).
  { unfold calm in *. cbn [plan with_plan].
    destruct (plan w) as [|o1 [|o2 [|o3 [|o4 [|o5 q]]]]]; cbn in *;
      repeat match goal with
             | H : _ && _ = true |- _ => apply andb_true_iff in H as [? H]
             end;
      repeat match goal with H : ?x = true |- _ => rewrite H end; auto. }
  destruct (update_calm DATA_FILE (with_links links)
              (with_plan (List.tl (List.tl (plan w))) w) d Hd Hcalm1)
    as (w2 & Hup & Hfile & _).
  exists d, w2. split; [exact Hd|].
  unfold Api.handleImport. unfold bind at 1. rewrite Hauth, Htruthy. cbn [negb].
  unfold try_catch, Api.parseBody. unfold bind at 1.
  cbn [ret Api.import_links Api.import_preferences]. rewrite Hinvalid.
  unfold bind.
  change (Storage.saveLinks DATA_FILE links) with (update DATA_FILE (with_links links)).
  rewrite Hup. cbn [ret]. split; [reflexivity | exact Hfile].
Qed.

Lemma handleImport_stores_links_first_witness :
  let twice := [mkLink "a" "A" "ftp://a" (-1); mkLink "a" "B" "" 0] in
  let p := mkPreferences "mosaic" "dark" "blue" "gray" "Title" in
  Api.isAuthenticated sample_data_file sample_request sample_world
  = (Ok (JsBool true), sample_world) /\
  calm 5 sample_world = true /\
  Api.import_preferences_invalid p = true /\
  exists w',
    Api.handleImport sample_data_file sample_request
      (Some (Api.mkImportBody (Api.LinksArray twice) (Some p))) sample_world
    = (Ok (Api.sendJSON 400 (Api.Failure "Invalid preferences")), w') /\
    files w' !! sample_data_file = Some (Json (with_links twice sample_document)).
Proof.
  intros twice p.
  assert (Hauth : Api.isAuthenticated sample_data_file sample_request sample_world
                  = (Ok (JsBool true), sample_world))
    by (vm_compute; reflexivity).
  split; [exact Hauth|]. split; [reflexivity|]. split; [reflexivity|].
  destruct (handleImport_stores_links_first sample_data_file sample_request
              twice p sample_world sample_world (JsBool true)
              Hauth eq_refl eq_refl eq_refl)
    as (d & w' & Hd & Himport & Hfile).
  cbn in Hd. injection Hd as <-.
  exists w'. split; assumption.
Defined.

(** A getter leaves the files alone and, when it returns, returns the field
    of the stored document. *)
Lemma getter_outcome (DATA_FILE : string) {A} (field : Document -> A) (w : World) :
  match bind (Storage.readData DATA_FILE) (fun data => ret (field data)) w with
  | (Ok x, w') =>
      files w' = files w /\
      exists d, stored_document (files w !! DATA_FILE) = Some d /\ x = field d
  | (Throw _, w') => files w' = files w
  end.
Proof.
  rewrite getter_eq.
  destruct (read_result _ _) as [d|e] eqn:Hread; [|reflexivity].
  apply read_result_Ok in Hread as [Hd _].
  split; [reflexivity | now exists d].
Qed.

(** X20. The three reading handlers.  [handleGetLinks],
    [handleGetPreferences] and [handleExport] change no file, whatever
    happens.  When one hands out data, the status is 200, the gate returned
    a truthy verdict for the request, and the data are the links, the
    preferences, or both, of the document stored when the request came in. *)
Theorem reading_handlers_serve_stored (DATA_FILE : string) (req : Api.Request)
    (w : World) :
  let served {A} (field : Document -> A) (run : result (Api.reply A) * World) :=
    files (snd run) = files w /\
    forall code payload, fst run = Ok (Api.Data code payload) ->
      code = 200%Z /\
      exists d v w1,
        stored_document (files w !! DATA_FILE) = Some d /\ payload = field d /\
        Api.isAuthenticated DATA_FILE req w = (Ok v, w1) /\ truthy v = true in
  served links (Api.handleGetLinks DATA_FILE req w) /\
  served preferences (Api.handleGetPreferences DATA_FILE req w) /\
  served (fun d => (links d, preferences d)) (Api.handleExport DATA_FILE req w).
Proof.
  intros served.
  pose proof (isAuthenticated_pure_read_files DATA_FILE req w) as Hfiles.
  assert (Hgate : forall A (field : Document -> A) (rest : M (Api.reply A)),
    (forall w1, files w1 = files w ->
       match rest w1 with
       | (Ok (Api.Data code payload), w') =>
           files w' = files w /\ code = 200%Z /\
           exists d, stored_document (files w !! DATA_FILE) = Some d /\
                     payload = field d
       | (_, w') => files w' = files w
       end) ->
    served A field
      (bind (Api.isAuthenticated DATA_FILE req)
         (fun authenticated =>
            if negb (truthy authenticated) then ret (Api.Refusal Api.unauthorized)
            else rest) w)).
  { intros A field rest Hrest. unfold served, bind.
    destruct (Api.isAuthenticated DATA_FILE req w) as [[v|e] w1];
      cbn [snd] in Hfiles; [|split; [assumption | discriminate]].
    destruct (truthy v) eqn:Hv; cbn [negb];
      [|split; [assumption | discriminate]].
    specialize (Hrest w1 Hfiles).
    destruct (rest w1) as [[[code payload|response]|e] w2]; cbn [fst snd].
    - destruct Hrest as (Hsame & -> & d & Hd & ->).
      split; [assumption|]. intros code payload E. inversion E; subst.
      split; [reflexivity|]. exists d, v, w1. auto.
    - split; [assumption | discriminate].
    - split; [assumption | discriminate]. }
  assert (Hget : forall A (field : Document -> A) w1, files w1 = files w ->
    match bind (Storage.readData DATA_FILE) (fun data => ret (field data)) w1 with
    | (Ok x, w') =>
        files w' = files w /\
        exists d, stored_document (files w !! DATA_FILE) = Some d /\ x = field d
    | (Throw _, w') => files w' = files w
    end).
  { intros A field w1 Hw1. pose proof (getter_outcome DATA_FILE field w1) as H.
    destruct (bind _ _ w1) as [[x|e] w2]; rewrite Hw1 in H; exact H. }
  split; [|split].
  - apply Hgate. intros w1 Hw1. unfold try_catch. unfold bind at 1.
    specialize (Hget _ links w1 Hw1).
    change (Storage.getLinks DATA_FILE w1)
      with (bind (Storage.readData DATA_FILE) (fun data => ret (links data)) w1).
    destruct (bind (Storage.readData DATA_FILE) _ w1) as [[x|e] w2]; cbn [ret].
    + destruct Hget as (Hsame & d & Hd & ->). eauto.
    + assumption.
  - apply Hgate. intros w1 Hw1. unfold try_catch. unfold bind at 1.
    specialize (Hget _ preferences w1 Hw1).
    change (Storage.getPreferences DATA_FILE w1)
      with (bind (Storage.readData DATA_FILE) (fun data => ret (preferences data)) w1).
    destruct (bind (Storage.readData DATA_FILE) _ w1) as [[x|e] w2]; cbn [ret].
    + destruct Hget as (Hsame & d & Hd & ->). eauto.
    + assumption.
  - apply Hgate. intros w1 Hw1. unfold try_catch. unfold bind at 1.
    pose proof (Hget _ links w1 Hw1) as Hfirst.
    change (Storage.getLinks DATA_FILE w1)
      with (bind (Storage.readData DATA_FILE) (fun data => ret (links data)) w1).
    destruct (bind (Storage.readData DATA_FILE) _ w1) as [[x|e] w2]; cbn [ret];
      [|assumption].
    destruct Hfirst as (Hsame & d & Hd & ->).
    unfold bind at 1.
    pose proof (Hget _ preferences w2 Hsame) as Hsecond.
    change (Storage.getPreferences DATA_FILE w2)
      with (bind (Storage.readData DATA_FILE) (fun data => ret (preferences data)) w2).
    destruct (bind (Storage.readData DATA_FILE) _ w2) as [[y|e] w3]; cbn [ret];
      [|assumption].
    destruct Hsecond as (Hsame2 & d2 & Hd2 & ->).
    assert (d2 = d) as -> by congruence.
    eauto.
Qed.



(* ===================================================================== *)
(** ** The request path                                                   *)
(* ===================================================================== *)

Lemma append_cons (c : ascii) (s t : string) :
  (String c s ++ t)%string = String c (s ++ t)%string.
Proof. reflexivity. Qed.

Lemma remove_trailing_slash_append (b : string) :
  Server.remove_trailing_slash (b ++ "/") = b.
Proof.
  induction b as [|c b IH]; [reflexivity|].
  rewrite append_cons. cbn [Server.remove_trailing_slash].
  destruct (String.eqb_spec (b ++ "/") EmptyString) as [E|_].
  - destruct b; discriminate E.
  - now rewrite IH.
Qed.

Lemma prefix_append (b p : string) : String.prefix b (b ++ p) = true.
Proof.
  induction b as [|c b IH]; [now destruct p|].
  rewrite append_cons. cbn [String.prefix].
  destruct (ascii_dec c c); [assumption | contradiction].
Qed.

Lemma substring_whole (p : string) : String.substring 0 (String.length p) p = p.
Proof. induction p as [|c p IH]; [reflexivity|]. cbn. now rewrite IH. Qed.

Lemma substring_from_append (b p : string) :
  Server.substring_from (String.length b) (b ++ p) = p.
Proof.
  unfold Server.substring_from.
  induction b as [|c b IH].
  - change (EmptyString ++ p)%string with p. cbn [String.length].
    rewrite Nat.sub_0_r. apply substring_whole.
  - rewrite append_cons. cbn [String.length String.substring].
    exact IH.
Qed.

Lemma requestPath_append (b p : string) :
  b <> EmptyString ->
  Server.requestPath b (b ++ p) = if String.eqb p "" then "/" else p.
Proof.
  intros Hb. unfold Server.requestPath.
  apply String.eqb_neq in Hb. rewrite Hb, prefix_append. cbn [negb andb].
  now rewrite substring_from_append.
Qed.

(** X22. The base path in front of the router.  A trailing slash of the
    configured base path is dropped.  With a non-empty base path [b], a
    request for [b] followed by [p] is served under [p] (under "/" when [p]
    is empty), whether or not [p] starts a new path segment, so it goes to
    the API router exactly when [p] starts with "/api/"; a request that does
    not start with [b] is served under its own url, so the API is reachable
    without the base path as well. *)
Theorem base_path_is_stripped_once (b p url : string) :
  b <> EmptyString ->
  Server.BASE_PATH (Some (b ++ "/")) = b /\
  Server.requestPath b (b ++ p) = (if String.eqb p "" then "/" else p) /\
  (Server.handleRequest_destination b (b ++ p)
   = if String.prefix "/api/" p then Server.ApiRoute p
     else Server.StaticFile (if String.eqb p "" then "/" else p)) /\
  (String.prefix b url = false ->
   Server.handleRequest_destination b url
   = if String.prefix "/api/" url then Server.ApiRoute url
     else Server.StaticFile url).
Proof.
  intros Hb. split; [apply remove_trailing_slash_append|].
  split; [now apply requestPath_append|].
  split.
  - unfold Server.handleRequest_destination.
    rewrite (requestPath_append b p Hb).
    destruct (String.eqb_spec p EmptyString) as [->|_]; reflexivity.
  - intros Hprefix. unfold Server.handleRequest_destination, Server.requestPath.
    rewrite Hprefix, andb_false_r. reflexivity.
Qed.

Lemma base_path_is_stripped_once_witness :
  Server.BASE_PATH (Some "/app/") = "/app" /\
  Server.handleRequest_destination "/app" "/app/api/links"
  = Server.ApiRoute "/api/links" /\
  Server.handleRequest_destination "/app" "/apple/api/links"
  = Server.StaticFile "le/api/links" /\
  Server.handleRequest_destination "/app" "/api/links"
  = Server.ApiRoute "/api/links".
Proof.
  assert (Hb : "/app" <> EmptyString) by discriminate.
  destruct (base_path_is_stripped_once "/app" "/api/links" "/api/links" Hb)
    as (Hbase & _ & Hwith & Hwithout).
  destruct (base_path_is_stripped_once "/app" "le/api/links" "" Hb)
    as (_ & _ & Hsegment & _).
  split; [exact Hbase|]. split; [exact Hwith|]. split; [exact Hsegment|].
  apply Hwithout. reflexivity.
Defined.
